(** * splunk-slack-bot: a shallow embedding of the authorization, audit-trail,
      search-client and formatting code

    The development follows the five Python modules of the repository:
    [admin_manager.py], [structured_logger.py], [splunk_client.py],
    [slack_handlers.py] and the raw-query handler of [app.py].

    Conventions of the embedding.
    - A Python [str] is a [string]; each [ascii] stands for the code point of
      the same number, so the model covers text in the range U+0000..U+00FF.
      The few characters above U+00FF in the texts that the program itself
      says or logs are held as their UTF-8 bytes; nothing is proved about
      the length or the slices of those texts.
    - A value decoded from or encodable to JSON is a [json]: an integer is a
      [Z], a float is held as its [repr].  The interpreter's limit on the
      number of digits of an integer turned into text is not modelled.  A
      Python [dict] is an association list in insertion order with unique
      keys.
    - The JSON decoder is the library's and is not modelled: what
      [resp.json()] returns or raises comes with the response, and
      [json.loads] is a parameter of [load_logs].
    - A call that can raise returns a [result]; the exception classes that the
      modelled code can raise are the constructors of [exn].
    - Wall-clock time is counted in integer ticks (milliseconds). *)

From Stdlib Require Import List String Ascii ZArith Bool Lia Arith.
From Stdlib Require Import DecimalString.
From Stdlib Require DecimalPos DecimalFacts.
Import ListNotations.
#[local] Set Warnings "-register-all".
Local Open Scope list_scope.
Local Open Scope string_scope.

(* ================================================================== *)
(** ** Python built-ins used by the sources *)

Module Py.

(** Exceptions raised by the modelled code. *)
Inductive exn : Type :=
| RuntimeError (msg : string)
| HTTPError (status : Z)
| JSONDecodeError
| AttributeError
| KeyError (key : string)
| TypeError
| IndexError
| ValueError
| RequestException.

Inductive result (A : Type) : Type :=
| Ok (a : A)
| Raise (e : exn).
Arguments Ok {A} a.
Arguments Raise {A} e.

Definition bind {A B} (m : result A) (f : A -> result B) : result B :=
  match m with
  | Ok a => f a
  | Raise e => Raise e
  end.

Definition raises {A} (m : result A) : bool :=
  match m with Ok _ => false | Raise _ => true end.

(** [for x in xs: acc = f(acc, x)], stopping at the first exception. *)
Fixpoint foldM {A S} (f : S -> A -> result S) (s : S) (xs : list A)
  : result S :=
  match xs with
  | [] => Ok s
  | x :: xs' => bind (f s x) (fun s' => foldM f s' xs')
  end.

(** [[x for x in xs if p(x)]] where [p] may raise. *)
Fixpoint filterM {A} (p : A -> result bool) (xs : list A)
  : result (list A) :=
  match xs with
  | [] => Ok []
  | x :: xs' =>
      bind (p x) (fun b =>
      bind (filterM p xs') (fun r => Ok (if b then x :: r else r)))
  end.

Definition code (c : ascii) : nat := nat_of_ascii c.

(** The double quote character, and the string that holds just it. *)
Definition dquote : ascii := ascii_of_nat 34.
Definition dq : string := String dquote EmptyString.

(** The line feed character, as a one-character string. *)
Definition nl : string := String (ascii_of_nat 10) EmptyString.

(** [str.isspace] on one character (code points below 256). *)
Definition isspace (c : ascii) : bool :=
  let n := code c in
  (((9 <=? n) && (n <=? 13)) || ((28 <=? n) && (n <=? 32))
   || (n =? 133) || (n =? 160))%nat.

Fixpoint mem_char (c : ascii) (chars : string) : bool :=
  match chars with
  | EmptyString => false
  | String d r => Ascii.eqb c d || mem_char c r
  end.

Fixpoint lstrip_by (p : ascii -> bool) (s : string) : string :=
  match s with
  | EmptyString => EmptyString
  | String c r => if p c then lstrip_by p r else s
  end.

Fixpoint rstrip_by (p : ascii -> bool) (s : string) : string :=
  match s with
  | EmptyString => EmptyString
  | String c r =>
      match rstrip_by p r with
      | EmptyString => if p c then EmptyString else String c EmptyString
      | r' => String c r'
      end
  end.

(** [s.strip()] *)
Definition strip (s : string) : string :=
  rstrip_by isspace (lstrip_by isspace s).

(** [s.strip(chars)] *)
Definition strip_chars (chars s : string) : string :=
  rstrip_by (fun c => mem_char c chars) (lstrip_by (fun c => mem_char c chars) s).

(** [s.split(sep)] for a one-character separator. *)
Fixpoint split (sep : ascii) (s : string) : list string :=
  match s with
  | EmptyString => [EmptyString]
  | String c r =>
      if Ascii.eqb c sep then EmptyString :: split sep r
      else match split sep r with
           | [] => [String c EmptyString]
           | w :: ws => String c w :: ws
           end
  end.

(** [sep.join(parts)] *)
Fixpoint join (sep : string) (parts : list string) : string :=
  match parts with
  | [] => EmptyString
  | [p] => p
  | p :: ps => p ++ sep ++ join sep ps
  end.

(** [s[:n]] for [n >= 0]. *)
Fixpoint take (n : nat) (s : string) : string :=
  match n, s with
  | S n', String c r => String c (take n' r)
  | _, _ => EmptyString
  end.

Fixpoint drop (n : nat) (s : string) : string :=
  match n, s with
  | S n', String _ r => drop n' r
  | _, _ => s
  end.

(** [s.replace(old, new)] for a non-empty [old]: occurrences are replaced
    left to right without overlap.  [skip] counts the characters of a
    matched occurrence that are still to be passed over. *)
Fixpoint replace_from (skip : nat) (old new s : string) : string :=
  match s with
  | EmptyString => EmptyString
  | String c r =>
      match skip with
      | S k => replace_from k old new r
      | O =>
          if String.prefix old s
          then new ++ replace_from (String.length old - 1) old new r
          else String c (replace_from 0 old new r)
      end
  end.

Definition replace (old new s : string) : string := replace_from 0 old new s.

Definition lower_char (c : ascii) : ascii :=
  let n := code c in
  if (((65 <=? n) && (n <=? 90))
      || ((192 <=? n) && (n <=? 222) && negb (n =? 215)))%nat
  then ascii_of_nat (n + 32) else c.

(** [s.lower()] *)
Fixpoint lower (s : string) : string :=
  match s with
  | EmptyString => EmptyString
  | String c r => String (lower_char c) (lower r)
  end.

(** [sub in s] for strings. *)
Fixpoint contains (sub s : string) : bool :=
  String.prefix sub s ||
  match s with
  | EmptyString => false
  | String _ r => contains sub r
  end.

(** [str(n)] for an integer. *)
Definition str_of_Z (n : Z) : string := NilZero.string_of_int (Z.to_int n).

Definition str_of_nat (n : nat) : string := str_of_Z (Z.of_nat n).

Definition hex_digit (n : nat) : ascii :=
  if (n <? 10)%nat then ascii_of_nat (48 + n) else ascii_of_nat (87 + n).

(** Two lowercase hexadecimal digits of a code point below 256. *)
Definition hex2 (c : ascii) : string :=
  let n := code c in
  String (hex_digit (n / 16)) (String (hex_digit (n mod 16)) EmptyString).

(** [str.isprintable] on one character (code points below 256). *)
Definition isprintable (c : ascii) : bool :=
  let n := code c in
  (((32 <=? n) && (n <=? 126)) || ((161 <=? n) && negb (n =? 173)))%nat.

(** [repr(s)] for a string. *)
Fixpoint repr_body (q : ascii) (s : string) : string :=
  match s with
  | EmptyString => EmptyString
  | String c r =>
      let n := code c in
      (if Ascii.eqb c q then String "\" (String c EmptyString)
       else if (n =? 92)%nat then "\\"
       else if (n =? 9)%nat then "\t"
       else if (n =? 10)%nat then "\n"
       else if (n =? 13)%nat then "\r"
       else if isprintable c then String c EmptyString
       else "\x" ++ hex2 c) ++ repr_body q r
  end.

Definition repr_str (s : string) : string :=
  let q := if mem_char "'" s && negb (mem_char dquote s) then dquote
           else "'"%char in
  String q (repr_body q s ++ String q EmptyString).

(** Python slice [xs[start:]] for an integer [start]. *)
Definition slice_from {A} (start : Z) (xs : list A) : list A :=
  let len := Z.of_nat (List.length xs) in
  let lo := if (start <? 0)%Z then Z.max 0 (start + len) else Z.min start len in
  skipn (Z.to_nat lo) xs.

(** Python slice [xs[:stop]] for [stop >= 0]. *)
Definition slice_to {A} (stop : nat) (xs : list A) : list A := firstn stop xs.

(** [s.split()]: the maximal runs of characters that are not blank. *)
Fixpoint split_ws (s : string) : list string :=
  match s with
  | EmptyString => []
  | String c r =>
      if isspace c then split_ws r
      else match r with
           | EmptyString => [String c EmptyString]
           | String d _ =>
               if isspace d then String c EmptyString :: split_ws r
               else match split_ws r with
                    | w :: ws => String c w :: ws
                    | [] => [String c EmptyString]
                    end
           end
  end.

(** [s.split(sep, 1)] for a one-character separator that occurs in [s]: the
    text before its first occurrence and the text after it. *)
Fixpoint split_once (sep : ascii) (s : string) : string * string :=
  match s with
  | EmptyString => (EmptyString, EmptyString)
  | String c r =>
      if Ascii.eqb c sep then (EmptyString, r)
      else let (before, after) := split_once sep r in (String c before, after)
  end.

End Py.

Export Py.
Notation "x <- m ;; k" := (Py.bind m (fun x => k))
  (at level 61, m at next level, right associativity).

(* ================================================================== *)
(** ** JSON values, [json.dumps], [str] and [repr] *)

Module Json.

(** A [float] is given by its [repr], the shortest decimal text that reads
    back as the same float: ["1.5"], ["1e+16"], ["-0.0"], ["inf"],
    ["nan"]. *)
Inductive json : Type :=
| JNull
| JBool (b : bool)
| JNum (n : Z)
| JFloat (r : string)
| JStr (s : string)
| JArr (items : list json)
| JObj (members : list (string * json)).

(** A [dict] with string keys, in insertion order. *)
Definition dict : Type := list (string * json).

(** [d.get(k)] *)
Fixpoint dict_get (k : string) (d : dict) : option json :=
  match d with
  | [] => None
  | (k', v) :: r => if String.eqb k k' then Some v else dict_get k r
  end.

(** [k in d] *)
Definition dict_has (k : string) (d : dict) : bool :=
  match dict_get k d with Some _ => true | None => false end.

(** [d[k] = v]: an existing key keeps its position. *)
Fixpoint dict_set (k : string) (v : json) (d : dict) : dict :=
  match d with
  | [] => [(k, v)]
  | (k', v') :: r =>
      if String.eqb k k' then (k, v) :: r else (k', v') :: dict_set k v r
  end.

(** [list(d.keys())] *)
Definition dict_keys (d : dict) : list string := map fst d.

(** Truth value of an object, as tested by [if x], [not x] and [x or y]. *)
Definition truthy (v : json) : bool :=
  match v with
  | JNull => false
  | JBool b => b
  | JNum n => negb (n =? 0)%Z
  | JFloat r => negb (String.eqb r "0.0" || String.eqb r "-0.0")
  | JStr s => negb (String.eqb s "")
  | JArr items => match items with [] => false | _ => true end
  | JObj members => match members with [] => false | _ => true end
  end.

(** [x[key]] for a string key. *)
Definition getitem (v : json) (k : string) : result json :=
  match v with
  | JObj d => match dict_get k d with
              | Some x => Ok x
              | None => Raise (KeyError k)
              end
  | _ => Raise TypeError
  end.

(** [x.get(key, default)]: only a [dict] has the method. *)
Definition get_default (v : json) (k : string) (default : json)
  : result json :=
  match v with
  | JObj d => Ok (match dict_get k d with Some x => x | None => default end)
  | _ => Raise AttributeError
  end.

(** [x.get(key)] *)
Definition get (v : json) (k : string) : result json := get_default v k JNull.

(** [x[0]]; a [dict] raises [KeyError] for the key [0], held here as its
    text. *)
Definition getitem0 (v : json) : result json :=
  match v with
  | JArr (x :: _) => Ok x
  | JArr [] => Raise IndexError
  | JStr (String c _) => Ok (JStr (String c EmptyString))
  | JStr EmptyString => Raise IndexError
  | JObj _ => Raise (KeyError "0")
  | _ => Raise TypeError
  end.

(** The body of a JSON string literal, as [json.dumps] writes it with
    [ensure_ascii] on. *)
Fixpoint escape (s : string) : string :=
  match s with
  | EmptyString => EmptyString
  | String c r =>
      let n := Py.code c in
      (if (n =? 34)%nat then "\" ++ Py.dq
       else if (n =? 92)%nat then "\\"
       else if (n =? 10)%nat then "\n"
       else if (n =? 13)%nat then "\r"
       else if (n =? 9)%nat then "\t"
       else if (n =? 12)%nat then "\f"
       else if (n =? 8)%nat then "\b"
       else if ((32 <=? n) && (n <=? 126))%nat then String c EmptyString
       else "\u00" ++ Py.hex2 c) ++ escape r
  end.

Definition encode_string (s : string) : string :=
  Py.dq ++ escape s ++ Py.dq.

(** [json.dumps(v)] with the default separators. *)
Fixpoint dumps (v : json) : string :=
  match v with
  | JNull => "null"
  | JBool true => "true"
  | JBool false => "false"
  | JNum n => Py.str_of_Z n
  | JFloat r =>
      if String.eqb r "nan" then "NaN"
      else if String.eqb r "inf" then "Infinity"
      else if String.eqb r "-inf" then "-Infinity"
      else r
  | JStr s => encode_string s
  | JArr items => "[" ++ Py.join ", " (map dumps items) ++ "]"
  | JObj members =>
      "{" ++ Py.join ", "
               (map (fun kv => match kv with
                               | (k, x) => encode_string k ++ ": " ++ dumps x
                               end) members) ++ "}"
  end.

(** [repr(v)] *)
Fixpoint repr (v : json) : string :=
  match v with
  | JNull => "None"
  | JBool true => "True"
  | JBool false => "False"
  | JNum n => Py.str_of_Z n
  | JFloat r => r
  | JStr s => Py.repr_str s
  | JArr items => "[" ++ Py.join ", " (map repr items) ++ "]"
  | JObj members =>
      "{" ++ Py.join ", "
               (map (fun kv => match kv with
                               | (k, x) => Py.repr_str k ++ ": " ++ repr x
                               end) members) ++ "}"
  end.

(** [str(v)], which is what an f-string field [{v}] inserts. *)
Definition str (v : json) : string :=
  match v with
  | JStr s => s
  | _ => repr v
  end.

End Json.

Export Json.

(* ================================================================== *)
(** ** admin_manager.py *)

Module AdminManager.

(** The attributes of an [AdminManager] instance. *)
Record t : Type := mk {
  admin_user_ids : list string;
  admin_channel_ids : list string;
  spl_query_enabled : bool;
  approval_required : bool
}.

(** [x.strip()] followed by stripping the two quote characters. *)
Definition clean (x : string) : string :=
  Py.strip_chars ("'" ++ Py.dq) (Py.strip x).

Definition nonempty (x : string) : bool := negb (String.eqb x "").

(** The comprehension of [__init__] over [raw.split(',')]: the cleaned
    pieces that are not empty. *)
Definition parse_ids (raw : string) : list string :=
  map clean (filter (fun x => nonempty (clean x)) (Py.split "," raw)).

Definition getenv (env : string -> option string) (key default : string)
  : string :=
  match env key with Some v => v | None => default end.

(** [AdminManager.__init__], reading the process environment [env]. *)
Definition init (env : string -> option string) : t :=
  {| admin_user_ids := parse_ids (getenv env "ADMIN_USER_IDS" "");
     admin_channel_ids := parse_ids (getenv env "ADMIN_CHANNEL_IDS" "");
     spl_query_enabled :=
       String.eqb (Py.lower (getenv env "ENABLE_SPL_QUERY" "true")) "true";
     approval_required :=
       String.eqb (Py.lower (getenv env "REQUIRE_SPL_APPROVAL" "false")) "true" |}.

(** [x in xs] for a list of strings. *)
Definition mem (x : string) (xs : list string) : bool :=
  existsb (String.eqb x) xs.

Definition is_admin (self : t) (user_id : string) : bool :=
  let clean_user_id := clean user_id in
  mem clean_user_id (admin_user_ids self).

(** [channel_id] is [None] when the caller leaves it out. *)
Definition is_admin_channel (self : t) (channel_id : option string) : bool :=
  match channel_id with
  | Some c => mem c (admin_channel_ids self)
  | None => false
  end.

Definition reason_disabled : string :=
  "SPL query execution is currently disabled".
Definition reason_restricted : string :=
  "❌ SPL queries are restricted to admins only".
Definition reason_granted : string :=
  "✅ Admin access granted".

Definition can_execute_spl (self : t) (user_id : string)
           (channel_id : option string) : bool * string :=
  if negb (spl_query_enabled self) then (false, reason_disabled)
  else if negb (is_admin self user_id) then (false, reason_restricted)
  else (true, reason_granted).

(** [audit_log]: builds the event record, writes one line to the module's
    logger and returns the record.  The result is the pair of the line
    handed to [logger.info] and the returned record; [now] is
    [datetime.now().isoformat()]. *)
Definition audit_log (now event_type user_id : string) (details : dict)
  : string * json :=
  let log_entry := JObj [("timestamp", JStr now);
                         ("event_type", JStr event_type);
                         ("user_id", JStr user_id);
                         ("details", JObj details)] in
  ("AUDIT: " ++ event_type ++ " | User: " ++ user_id ++ " | Details: "
     ++ Json.repr (JObj details),
   log_entry).

Definition get_admin_list (self : t) : list string := admin_user_ids self.

Definition set_admin_user_ids (self : t) (ids : list string) : t :=
  {| admin_user_ids := ids;
     admin_channel_ids := admin_channel_ids self;
     spl_query_enabled := spl_query_enabled self;
     approval_required := approval_required self |}.

(** [xs.remove(x)] when [x in xs]: deletes the first occurrence. *)
Fixpoint list_remove (x : string) (xs : list string) : list string :=
  match xs with
  | [] => []
  | y :: r => if String.eqb x y then r else y :: list_remove x r
  end.

Definition add_admin (self : t) (user_id : string) : t :=
  if negb (mem user_id (admin_user_ids self))
  then set_admin_user_ids self (admin_user_ids self ++ [user_id])%list
  else self.

Definition remove_admin (self : t) (user_id : string) : t :=
  if mem user_id (admin_user_ids self)
  then set_admin_user_ids self (list_remove user_id (admin_user_ids self))
  else self.

End AdminManager.

(* ================================================================== *)
(** ** structured_logger.py *)

Module StructuredLogger.

(** The state of a [StructuredLogger]: the in-memory sequence [logs] and the
    content of the file named by [self.log_file] ([None] while the file does
    not exist).  Entries are [json] values because [load_logs] appends
    whatever [json.loads] returns.  The lines that [_print_readable] hands
    to the module's logger are not kept. *)
Record t : Type := mk {
  logs : list json;
  store : option string
}.

(** The lines of a file opened for reading in text mode, as iterating over
    it yields them: each with its line terminator, which universal newlines
    turn into a line feed; the last line has none when the file does not end
    with one. *)
Fixpoint file_lines (cur : string) (s : string) : list string :=
  match s with
  | EmptyString => match cur with EmptyString => [] | _ => [cur] end
  | String c r =>
      if (Py.code c =? 10)%nat then (cur ++ Py.nl) :: file_lines EmptyString r
      else if (Py.code c =? 13)%nat then
        match r with
        | String d r' =>
            if (Py.code d =? 10)%nat
            then (cur ++ Py.nl) :: file_lines EmptyString r'
            else (cur ++ Py.nl) :: file_lines EmptyString r
        | EmptyString => [cur ++ Py.nl]
        end
      else file_lines (cur ++ String c EmptyString) r
  end.

(** [json.loads] as [load_logs] calls it: what it returns or raises on a
    line.  The decoder is the library's; the model takes it as a
    parameter. *)
Definition decoder : Type := string -> result json.

(** One round of the loop of [load_logs]: the entries afterwards, and the
    exception that leaves the loop, if any.  The inner [try] catches
    [json.JSONDecodeError] only. *)
Definition load_line (loads : decoder) (acc : list json) (line : string)
  : list json * result unit :=
  if AdminManager.nonempty (Py.strip line) then
    match loads line with
    | Ok v => ((acc ++ [v])%list, Ok tt)
    | Raise JSONDecodeError => (acc, Ok tt)
    | Raise e => (acc, Raise e)
    end
  else (acc, Ok tt).

(** The loop of [load_logs] over the lines of the file.  An exception that
    leaves the loop is caught by the outer [try], which reports it to the
    logger: the lines after it are not read, the entries before it stay. *)
Fixpoint load_lines (loads : decoder) (acc : list json) (lines : list string)
  : list json :=
  match lines with
  | [] => acc
  | line :: rest =>
      match load_line loads acc line with
      | (acc', Ok _) => load_lines loads acc' rest
      | (acc', Raise _) => acc'
      end
  end.

(** [load_logs]; a file that exists but cannot be read as text is not
    modelled. *)
Definition load_logs (loads : decoder) (self : t) : t :=
  match store self with
  | Some content =>
      {| logs := load_lines loads (logs self) (file_lines EmptyString content);
         store := store self |}
  | None => self
  end.

(** [StructuredLogger.__init__]: [fs] is the content of [log_file], if the
    file exists. *)
Definition init (loads : decoder) (fs : option string) : t :=
  load_logs loads {| logs := []; store := fs |}.

(** The logger that [__init__] builds while the log file does not exist:
    [load_logs] reads nothing and the decoder is not called. *)
Definition fresh : t := {| logs := []; store := None |}.

(** The arguments of [log_action]; [changes] and [error] default to
    [None]. *)
Record action : Type := mk_action {
  user_id : string;
  user_name : string;
  command : string;
  channel_id : string;
  channel_name : string;
  action_text : string;
  result_text : string;
  changes : option dict;
  error : option string
}.

Definition log_entry (now : string) (a : action) : json :=
  JObj [("timestamp", JStr now);
        ("user_id", JStr (user_id a));
        ("user_name", JStr (user_name a));
        ("command", JStr (command a));
        ("channel_id", JStr (channel_id a));
        ("channel_name", JStr (channel_name a));
        ("action", JStr (action_text a));
        ("result", JStr (result_text a));
        ("changes", JObj (match changes a with
                          | Some (x :: d) => x :: d
                          | _ => []
                          end));
        ("error", match error a with Some e => JStr e | None => JNull end)].

(** [log_action]: [now] is [datetime.now().isoformat()]; [write_ok] tells
    whether appending to the log file succeeds (a failure is caught and
    reported to the logger). *)
Definition log_action (now : string) (write_ok : bool) (a : action)
           (self : t) : t :=
  let entry := log_entry now a in
  {| logs := (logs self ++ [entry])%list;
     store := if write_ok
              then Some (match store self with Some c => c | None => "" end
                         ++ Json.dumps entry ++ Py.nl)
              else store self |}.

(** [export_json]: [open_ok] tells whether the output file can be written;
    the text written ([json.dump] with [indent=2]) is not modelled. *)
Definition export_json (open_ok : bool) (output_file : string) (self : t)
  : t * option string :=
  (self, if open_ok then Some output_file else None).

Definition csv_fieldnames : list string :=
  ["timestamp"; "user_id"; "user_name"; "command"; "channel_id";
   "channel_name"; "action"; "result"; "changes"; "error"].

(** One round of the loop of [export_csv] on the entry [log]: the entry as
    the round leaves it in [self.logs], and whether the round completed.
    [log.get] needs a [dict]; the assignment [log['changes'] = ...] updates
    the entry in place; [DictWriter.writerow] raises [ValueError] for a key
    outside [fieldnames]. *)
Definition export_csv_row (log : json) : json * result unit :=
  match log with
  | JObj d =>
      let text := Json.dumps (match dict_get "changes" d with
                              | Some c => c
                              | None => JObj []
                              end) in
      let d' := dict_set "changes" (JStr text) d in
      (JObj d',
       if forallb (fun k => AdminManager.mem k csv_fieldnames) (dict_keys d')
       then Ok tt else Raise ValueError)
  | _ => (log, Raise AttributeError)
  end.

(** The loop of [export_csv]; it stops at the first exception. *)
Fixpoint export_csv_rows (ls : list json) : list json * result unit :=
  match ls with
  | [] => ([], Ok tt)
  | log :: rest =>
      match export_csv_row log with
      | (log', Ok _) =>
          let (rest', r) := export_csv_rows rest in (log' :: rest', r)
      | (log', Raise e) => (log' :: rest, Raise e)
      end
  end.

(** [export_csv]; the text written is not modelled. *)
Definition export_csv (open_ok : bool) (output_file : string) (self : t)
  : t * option string :=
  match logs self with
  | [] => (self, None)
  | _ =>
      if open_ok then
        let (ls, r) := export_csv_rows (logs self) in
        ({| logs := ls; store := store self |},
         match r with Ok _ => Some output_file | Raise _ => None end)
      else (self, None)
  end.

(** [x.split(sep)] is a method of [str] only. *)
Definition split_method (v : json) (sep : ascii) : result (list string) :=
  match v with
  | JStr s => Ok (Py.split sep s)
  | _ => Raise AttributeError
  end.

Definition index {A} (xs : list A) (i : nat) : result A :=
  match nth_error xs i with
  | Some x => Ok x
  | None => Raise IndexError
  end.

(** [entry['timestamp'].split('T')[i]] *)
Definition timestamp_part (entry : json) (i : nat) : result string :=
  ts <- Json.getitem entry "timestamp" ;;
  parts <- split_method ts "T" ;;
  index parts i.

Definition rule (c : string) : string := String.concat "" (repeat c 80).

(** A sequence of [f.write] calls whose arguments may raise: the text
    written and how the sequence ended. *)
Fixpoint write_all (ws : list (result string)) : string * result unit :=
  match ws with
  | [] => ("", Ok tt)
  | Ok text :: rest => let (more, r) := write_all rest in (text ++ more, r)
  | Raise e :: _ => ("", Raise e)
  end.

(** One round of the loop of [export_txt]: the text it writes and how it
    ends. *)
Definition export_txt_entry (entry : json) : string * result unit :=
  match (clock <- timestamp_part entry 1 ;;
         timestamp <- index (Py.split "." clock) 0 ;;
         date <- timestamp_part entry 0 ;;
         Ok (date, timestamp)) with
  | Raise e => ("", Raise e)
  | Ok (date, timestamp) =>
      write_all
        [ Ok ("Date/Time:  " ++ date ++ " " ++ timestamp ++ Py.nl);
          (user_name <- Json.getitem entry "user_name" ;;
           user_id <- Json.getitem entry "user_id" ;;
           Ok ("User:       " ++ Json.str user_name
               ++ " (" ++ Json.str user_id ++ ")" ++ Py.nl));
          (channel_name <- Json.getitem entry "channel_name" ;;
           channel_id <- Json.getitem entry "channel_id" ;;
           Ok ("Channel:    " ++ Json.str channel_name
               ++ " (" ++ Json.str channel_id ++ ")" ++ Py.nl));
          (command <- Json.getitem entry "command" ;;
           Ok ("Command:    " ++ Json.str command ++ Py.nl));
          (action <- Json.getitem entry "action" ;;
           Ok ("Action:     " ++ Json.str action ++ Py.nl));
          (result <- Json.getitem entry "result" ;;
           Ok ("Result:     " ++ Json.str result ++ Py.nl));
          (changes <- Json.getitem entry "changes" ;;
           Ok (if Json.truthy changes
               then "Changes:    " ++ Json.dumps changes ++ Py.nl else ""));
          (error <- Json.getitem entry "error" ;;
           Ok (if Json.truthy error
               then "Error:      " ++ Json.str error ++ Py.nl else ""));
          Ok (rule "-" ++ Py.nl ++ Py.nl) ]
  end.

(** The loop of [export_txt]; it stops at the first exception. *)
Fixpoint export_txt_entries (ls : list json) : string * result unit :=
  match ls with
  | [] => ("", Ok tt)
  | entry :: rest =>
      match export_txt_entry entry with
      | (text, Ok _) =>
          let (more, r) := export_txt_entries rest in (text ++ more, r)
      | (text, Raise e) => (text, Raise e)
      end
  end.

(** [export_txt]: the text written to the output file and the value
    returned.  An exception inside the [try] block is caught: the file keeps
    what was written before it and the method returns [None]. *)
Definition export_txt (open_ok : bool) (now output_file : string) (self : t)
  : string * option string :=
  if open_ok then
    let header :=
      "SPLUNK QUERY BOT - AUDIT LOG EXPORT" ++ Py.nl
      ++ "Generated: " ++ now ++ Py.nl
      ++ "Total Entries: " ++ Py.str_of_nat (List.length (logs self)) ++ Py.nl
      ++ rule "=" ++ Py.nl ++ Py.nl in
    match export_txt_entries (logs self) with
    | (text, Ok _) => (header ++ text, Some output_file)
    | (text, Raise _) => (header ++ text, None)
    end
  else ("", None).

(** The condition of a list comprehension [log[key] == value]. *)
Definition field_is (key value : string) (log : json) : result bool :=
  v <- Json.getitem log key ;;
  Ok (match v with JStr s => String.eqb s value | _ => false end).

Definition get_user_logs (self : t) (user_id : string) : result (list json) :=
  Py.filterM (field_is "user_id" user_id) (logs self).

Definition get_recent_logs (self : t) (limit : Z) : list json :=
  Py.slice_from (- limit) (logs self).

Definition get_logs_by_command (self : t) (command : string)
  : result (list json) :=
  Py.filterM (field_is "command" command) (logs self).

End StructuredLogger.

(* ================================================================== *)
(** ** splunk_client.py *)

Module SplunkClient.

(** What [requests] hands back: the status, the body text, and what
    [resp.json()] returns or raises.  The decoding is the library's: the
    model takes its outcome as it comes, and relates it to [text] nowhere. *)
Record response : Type := mk_response {
  status_code : Z;
  text : string;
  resp_json : result json
}.

(** A request either yields a response or fails in the transport
    ([requests] raises); the exception is the library's. *)
Definition reply : Type := result response.

(** [resp.raise_for_status()] *)
Definition raise_for_status (resp : response) : result unit :=
  if ((400 <=? status_code resp) && (status_code resp <? 600))%Z
  then Raise (HTTPError (status_code resp)) else Ok tt.

(** The form fields of a job-creation request. *)
Record job_request : Type := mk_job_request {
  search : string;
  earliest_time : string;
  latest_time : string;
  exec_mode : string
}.

(** The remote search API as the client sees it: the reply to a
    job-creation POST, the reply to the [k]-th status GET of a job together
    with the ticks that request takes, and the reply to a results GET. *)
Record backend : Type := mk_backend {
  post_job : job_request -> reply;
  get_job : string -> nat -> nat * reply;
  get_results_of : string -> Z -> reply
}.

(** [x in d] for a string key. *)
Definition contains_key (k : string) (v : json) : result bool :=
  match v with
  | JObj d => Ok (dict_has k d)
  | JArr items =>
      Ok (existsb (fun x => match x with JStr s => String.eqb s k | _ => false end)
                  items)
  | JStr s => Ok (Py.contains k s)
  | _ => Raise TypeError
  end.

(** The statement
    [if not sid and 'entry' in payload and payload['entry']: sid = ...]. *)
Definition nested_sid (payload sid : json) : result json :=
  if negb (Json.truthy sid) then
    has_entry <- contains_key "entry" payload ;;
    if has_entry then
      entry <- Json.getitem payload "entry" ;;
      if Json.truthy entry then
        first <- Json.getitem0 entry ;;
        content <- Json.get_default first "content" (JObj []) ;;
        Json.get content "sid"
      else Ok sid
    else Ok sid
  else Ok sid.

Definition dispatch_saved_search (b : backend) (saved_search_name : string)
           (earliest_time latest_time : string) : result json :=
  let data := {| search := "| savedsearch " ++ Py.dq ++ saved_search_name
                           ++ Py.dq;
                 earliest_time := earliest_time;
                 latest_time := latest_time;
                 exec_mode := "normal" |} in
  resp <- post_job b data ;;
  if (400 <=? status_code resp)%Z then
    Raise (RuntimeError ("Splunk job create failed ("
                         ++ Py.str_of_Z (status_code resp) ++ "): "
                         ++ text resp))
  else
    payload <- resp_json resp ;;
    sid <- Json.get payload "sid" ;;
    sid <- nested_sid payload sid ;;
    if negb (Json.truthy sid) then
      Raise (RuntimeError ("Could not get SID from Splunk response: "
                           ++ Json.str payload))
    else Ok sid.

Definition run_spl_query (b : backend) (spl_query : string)
           (earliest_time latest_time : string) : result json :=
  let data := {| search := spl_query;
                 earliest_time := earliest_time;
                 latest_time := latest_time;
                 exec_mode := "normal" |} in
  resp <- post_job b data ;;
  if (400 <=? status_code resp)%Z then
    Raise (RuntimeError ("Splunk query failed ("
                         ++ Py.str_of_Z (status_code resp) ++ "): "
                         ++ text resp))
  else
    payload <- resp_json resp ;;
    sid <- Json.get payload "sid" ;;
    sid <- nested_sid payload sid ;;
    if negb (Json.truthy sid) then
      Raise (RuntimeError ("Could not get SID from Splunk response: "
                           ++ Json.str payload))
    else Ok sid.

(** [x or default] *)
Definition or_else (x default : json) : json :=
  if Json.truthy x then x else default.

(** [is_done in (True, "1", 1)]: membership compares with [==], under
    which the float [1.0] equals [1] and [True]. *)
Definition is_done_value (v : json) : bool :=
  match v with
  | JBool b => b
  | JStr s => String.eqb s "1"
  | JNum n => (n =? 1)%Z
  | JFloat r => String.eqb r "1.0"
  | _ => false
  end.

(** The body of the loop of [wait_for_job] from the reply to the status
    request up to the test of [is_done]. *)
Definition poll_done (r : reply) : result bool :=
  resp <- r ;;
  _ <- raise_for_status resp ;;
  data <- resp_json resp ;;
  entries <- Json.get data "entry" ;;
  entry <- Json.getitem0 (or_else entries (JArr [JObj []])) ;;
  content <- Json.get_default entry "content" (JObj []) ;;
  is_done <- Json.get content "isDone" ;;
  Ok (is_done_value is_done).

(** A finished call of [wait_for_job]: how it ended, and how many status
    requests and how many sleeps it performed. *)
Record wait_run : Type := mk_wait_run {
  outcome : result bool;
  polls : nat;
  sleeps : nat
}.

(** The loop of [wait_for_job].  [elapsed] is [time.time() - start] at the
    test of the loop condition and [k] the number of rounds completed; a
    round that does not return lasts the ticks of its request plus
    [poll_interval]; [time.sleep] raises [ValueError] for a negative
    length.  [None] means that [fuel] rounds did not finish the loop. *)
Fixpoint wait_loop (fuel : nat) (b : backend) (sid : string)
         (max_wait poll_interval elapsed : Z) (k : nat) : option wait_run :=
  match fuel with
  | O => None
  | S fuel' =>
      if (elapsed <? max_wait)%Z then
        let (cost, r) := get_job b sid k in
        match poll_done r with
        | Raise e => Some {| outcome := Raise e; polls := S k; sleeps := k |}
        | Ok true => Some {| outcome := Ok true; polls := S k; sleeps := k |}
        | Ok false =>
            if (poll_interval <? 0)%Z then
              Some {| outcome := Raise ValueError; polls := S k; sleeps := k |}
            else
              wait_loop fuel' b sid max_wait poll_interval
                        (elapsed + Z.of_nat cost + poll_interval) (S k)
        end
      else Some {| outcome := Ok false; polls := k; sleeps := k |}
  end.



(** [wait_for_job]; times are in ticks. *)
Definition wait_for_job (fuel : nat) (b : backend) (sid : string)
           (max_wait poll_interval : Z) : option wait_run :=
  wait_loop fuel b sid max_wait poll_interval 0 0.

(** Rounds that always finish the loop when [poll_interval] is positive. *)
Definition enough_fuel (max_wait poll_interval : Z) : nat :=
  S (S (Z.to_nat (max_wait / poll_interval))).

Definition get_results (b : backend) (sid : string) (count : Z)
  : result json :=
  resp <- get_results_of b sid count ;;
  _ <- raise_for_status resp ;;
  payload <- resp_json resp ;;
  Json.get_default payload "results" (JArr []).

End SplunkClient.

(* ================================================================== *)
(** ** slack_handlers.py *)

Module SlackHandlers.

Definition keys_priority : list string :=
  ["_time"; "host"; "source"; "sourcetype"; "user"; "src"; "dest"; "count"].

(** The field names shown for one row. *)
Definition show_keys (row : dict) : list string :=
  match firstn 4 (filter (fun k => dict_has k row) keys_priority) with
  | [] => firstn 4 (dict_keys row)
  | ks => ks
  end.

(** [f"{k}={row.get(k)}"] *)
Definition field (row : dict) (k : string) : string :=
  k ++ "=" ++ Json.str (match dict_get k row with Some v => v | None => JNull end).

Definition snippet (row : dict) : string :=
  Py.join ", " (map (field row) (show_keys row)).

(** The lines appended by the loop over [enumerate(results, start=i)]. *)
Fixpoint row_lines (i : nat) (results : list dict) : list string :=
  match results with
  | [] => []
  | row :: rest =>
      (Py.str_of_nat i ++ ". " ++ snippet row) :: row_lines (S i) rest
  end.

(** The list [lines] at the end of [format_results] for non-empty
    [results]. *)
Definition result_lines (saved_search_name sid : string)
           (results : list dict) : list string :=
  ["✅ *" ++ saved_search_name ++ "* results (top "
     ++ Py.str_of_nat (List.length results) ++ "):";
   "• SID: `" ++ sid ++ "`";
   ""] ++ row_lines 1 results.

(** [format_results] on a list of row mappings. *)
Definition format_results (saved_search_name sid : string)
           (results : list dict) : string :=
  match results with
  | [] =>
      "✅ *" ++ saved_search_name ++ "* ran successfully." ++ Py.nl
      ++ "• SID: `" ++ sid ++ "`" ++ Py.nl ++ "• No results found."
  | _ => Py.join Py.nl (result_lines saved_search_name sid results)
  end.

(** One round of the loop of [parse_args] over [parts[1:]]. *)
Definition add_param (params : dict) (token : string) : dict :=
  if Py.mem_char "=" token then
    let (k, v) := Py.split_once "=" token in
    dict_set (Py.strip k) (JStr (Py.strip v)) params
  else params.

(** [parse_args(text)]; [text] may be [None].  The result is the pair of the
    search name ([None] for a blank text) and the parameters. *)
Definition parse_args (text : option string) : result (option string * dict) :=
  let text := Py.strip (match text with Some t => t | None => "" end) in
  if String.eqb text "" then Ok (None, [])
  else
    match Py.split_ws text with
    | [] => Raise IndexError
    | search_name :: tokens =>
        Ok (Some search_name, fold_left add_param tokens [])
    end.

End SlackHandlers.

(* ================================================================== *)
(** ** app.py: the raw-query command *)

Module App.

(** The fields of a chat message that the handler reads with
    [message.get(key, "")]. *)
Record message : Type := mk_message {
  user : option string;
  channel : option string;
  text : option string
}.

Definition get_or_empty (x : option string) : string :=
  match x with Some s => s | None => "" end.

(** A request sent to the search backend. *)
Inductive request : Type :=
| PostJob (data : SplunkClient.job_request)
| GetJob (sid : string)
| GetResults (sid : string) (count : Z).

(** The module-level objects the handler works on, and what it emits:
    [audit_log] is the [StructuredLogger] of the audit trail, [said] the
    texts passed to [say], [logged] the lines that
    [admin_manager.audit_log] hands to its logger and [requests] the
    requests that [splunk] sent, all oldest first. *)
Record world : Type := mk_world {
  admin_manager : AdminManager.t;
  audit_log : StructuredLogger.t;
  said : list string;
  logged : list string;
  requests : list request
}.

Definition say (msg : string) (w : world) : world :=
  {| admin_manager := admin_manager w; audit_log := audit_log w;
     said := (said w ++ [msg])%list; logged := logged w;
     requests := requests w |}.

(** A call of [admin_manager.audit_log] whose result is dropped. *)
Definition security_event (now event_type user_id : string) (details : dict)
           (w : world) : world :=
  {| admin_manager := admin_manager w; audit_log := audit_log w;
     said := said w;
     logged := (logged w
                ++ [fst (AdminManager.audit_log now event_type user_id details)])%list;
     requests := requests w |}.

Definition sent (rs : list request) (w : world) : world :=
  {| admin_manager := admin_manager w; audit_log := audit_log w;
     said := said w; logged := logged w;
     requests := (requests w ++ rs)%list |}.

Definition usage : string :=
  "*Usage:* `!splunk-query " ++ Py.dq ++ "index=_internal | head 5" ++ Py.dq
  ++ "`".

Section Handler.

(** The search backend, [RESULT_LIMIT], the text [str(e)] of an
    exception, and the successive readings of [datetime.now()]. *)
Variable splunk : SplunkClient.backend.
Variable RESULT_LIMIT : Z.
Variable exc_text : exn -> string.
Variable clock : nat -> string.

(** The [except Exception as e] clause. *)
Definition on_error (user_id channel_id : string) (e : exn) (w : world)
  : world :=
  security_event (clock 1) "ERROR_SPL_QUERY" user_id
                 [("error", JStr (exc_text e)); ("channel", JStr channel_id)]
                 (say ("❌ Error running SPL query: `" ++ exc_text e ++ "`") w).

(** The [try] block after the query has been announced. *)
Definition run_query (user_id channel_id query : string) (w : world)
  : option world :=
  let w := sent [PostJob {| SplunkClient.search := query;
                            SplunkClient.earliest_time := "-24h";
                            SplunkClient.latest_time := "now";
                            SplunkClient.exec_mode := "normal" |}] w in
  match SplunkClient.run_spl_query splunk query "-24h" "now" with
  | Raise e => Some (on_error user_id channel_id e w)
  | Ok sid =>
      let sid := Json.str sid in
      match SplunkClient.wait_for_job
              (SplunkClient.enough_fuel 35000 1500) splunk sid 35000 1500 with
      | None => None
      | Some run =>
          let w := sent (repeat (GetJob sid) (SplunkClient.polls run)) w in
          match SplunkClient.outcome run with
          | Raise e => Some (on_error user_id channel_id e w)
          | Ok false =>
              Some (say ("⚠️ Query started but did not finish in time."
                         ++ Py.nl ++ "• SID: `" ++ sid ++ "`") w)
          | Ok true =>
              let w := sent [GetResults sid RESULT_LIMIT] w in
              match SplunkClient.get_results splunk sid RESULT_LIMIT with
              | Raise e => Some (on_error user_id channel_id e w)
              | Ok results =>
                  Some (say ("*SPL Query Results* (SID: `" ++ sid ++ "`)"
                             ++ Py.nl ++ "```" ++ Json.str results ++ "```") w)
              end
          end
      end
  end.

(** [handle_splunk_query(message, say)]; [None] only if the wait for the
    job ran out of rounds. *)
Definition handle_splunk_query (m : message) (w : world) : option world :=
  let user_id := get_or_empty (user m) in
  let channel_id := get_or_empty (channel m) in
  let text := Py.strip (Py.replace "!splunk-query" "" (get_or_empty (text m))) in
  let (is_allowed, reason) :=
    AdminManager.can_execute_spl (admin_manager w) user_id (Some channel_id) in
  if negb is_allowed then
    Some (security_event (clock 0) "DENIED_SPL_QUERY" user_id
            [("reason", JStr reason);
             ("channel", JStr channel_id);
             ("query_preview", JStr (Py.take 50 text))]
            (say reason w))
  else if negb (AdminManager.nonempty text) then
    Some (say usage w)
  else
    let w := security_event (clock 0) "EXECUTED_SPL_QUERY" user_id
               [("channel", JStr channel_id);
                ("query_preview", JStr (Py.take 100 text))] w in
    run_query user_id channel_id text (say "⏳ Running SPL query..." w).

End Handler.

(** ** app.py: the environment file *)

(** [f.readlines()] on a file opened for reading in text mode: the lines of
    the content, each with its terminator translated to one line feed; the
    last line has none when the content does not end with one.  [cur] is
    the part of the current line read so far. *)
Fixpoint readlines (cur : string) (s : string) : list string :=
  match s with
  | EmptyString => match cur with EmptyString => [] | _ => [cur] end
  | String c r =>
      if (Py.code c =? 10)%nat then (cur ++ Py.nl) :: readlines EmptyString r
      else if (Py.code c =? 13)%nat then
        match r with
        | String d r' =>
            if (Py.code d =? 10)%nat
            then (cur ++ Py.nl) :: readlines EmptyString r'
            else (cur ++ Py.nl) :: readlines EmptyString r
        | EmptyString => [cur ++ Py.nl]
        end
      else readlines (cur ++ String c EmptyString) r
  end.

(** The loop of [update_env_file] over [enumerate(env_lines)]: the list
    with its first line that starts with [prefix] replaced by [line], or
    [None] when [key_found] stays false. *)
Fixpoint replace_first (prefix line : string) (env_lines : list string)
  : option (list string) :=
  match env_lines with
  | [] => None
  | l :: r =>
      if String.prefix prefix l then Some (line :: r)
      else match replace_first prefix line r with
           | Some r' => Some (l :: r')
           | None => None
           end
  end.

(** The loop followed by [if not key_found: env_lines.append(...)]. *)
Definition put_line (prefix line : string) (env_lines : list string)
  : list string :=
  match replace_first prefix line env_lines with
  | Some ls => ls
  | None => (env_lines ++ [line])%list
  end.

(** [f.writelines(env_lines)] on a file just opened for writing. *)
Definition writelines (env_lines : list string) : string :=
  fold_right String.append EmptyString env_lines.

(** [update_env_file(key, value)]: [fs] is the content of the file at
    [ENV_FILE_PATH], if it exists; [read_ok] and [write_ok] tell whether
    the file can be opened for reading and for writing (an exception is
    caught and makes the function return [False]).  The result is the file
    afterwards and the value returned.  The reload of the process
    environment by [load_dotenv] is not modelled. *)
Definition update_env_file (read_ok write_ok : bool) (key value : string)
           (fs : option string) : option string * bool :=
  match (match fs with
         | Some c => if read_ok then Some (readlines EmptyString c) else None
         | None => Some []
         end) with
  | None => (fs, false)
  | Some env_lines =>
      let env_lines :=
        put_line (key ++ "=") (key ++ "=" ++ value ++ Py.nl) env_lines in
      if write_ok then (Some (writelines env_lines), true) else (fs, false)
  end.

End App.

(* ================================================================== *)
(** * Scenarios and contracts used by the properties *)

(** An admin adds a second admin: the arguments of the [log_action] call of
    the [!admin-add] command. *)
Definition admin_added : StructuredLogger.action :=
  {| StructuredLogger.user_id := "U1";
     StructuredLogger.user_name := "alice";
     StructuredLogger.command := "!admin-add";
     StructuredLogger.channel_id := "C1";
     StructuredLogger.channel_name := "unknown";
     StructuredLogger.action_text := "Added new admin user";
     StructuredLogger.result_text := "SUCCESS";
     StructuredLogger.changes := Some [("new_admin", JStr "U2");
                                       ("total_admins", JNum 2)];
     StructuredLogger.error := None |}.

(** A non-admin tries to export the logs. *)
Definition export_denied : StructuredLogger.action :=
  {| StructuredLogger.user_id := "U9";
     StructuredLogger.user_name := "mallory";
     StructuredLogger.command := "!export-logs";
     StructuredLogger.channel_id := "C1";
     StructuredLogger.channel_name := "unknown";
     StructuredLogger.action_text := "Attempted to export logs";
     StructuredLogger.result_text := "DENIED";
     StructuredLogger.changes := None;
     StructuredLogger.error := Some "User is not admin" |}.

(** A trail with these two entries, started with no log file. *)
Definition two_entries : StructuredLogger.t :=
  StructuredLogger.log_action "2024-05-01T10:00:01.000200" true export_denied
    (StructuredLogger.log_action "2024-05-01T10:00:00.000100" true admin_added
       StructuredLogger.fresh).


(** ** The job id of a decoded response body, in the words of the
    specification *)

(** A field that is there and that Python counts as true. *)
Definition present (v : option json) : option json :=
  match v with
  | Some x => if Json.truthy x then Some x else None
  | None => None
  end.

(** First shape: a top-level [sid] field. *)
Definition top_level_sid (d : dict) : option json := present (dict_get "sid" d).

(** Second shape: [sid] inside the [content] of the first result entry. *)
Definition first_entry_sid (d : dict) : option json :=
  match dict_get "entry" d with
  | Some (JArr (JObj first :: _)) =>
      match dict_get "content" first with
      | Some (JObj content) => present (dict_get "sid" content)
      | _ => None
      end
  | _ => None
  end.

Definition spec_job_id (d : dict) : option json :=
  match top_level_sid d with
  | Some sid => Some sid
  | None => first_entry_sid d
  end.

(** Bodies whose [entry] field, where the client has to look into it, is a
    list starting with a mapping whose [content], if any, is a mapping. *)
Definition entry_shape_ok (d : dict) : bool :=
  match top_level_sid d with
  | Some _ => true
  | None =>
      match dict_get "entry" d with
      | None => true
      | Some e =>
          if Json.truthy e then
            match e with
            | JArr (JObj first :: _) =>
                match dict_get "content" first with
                | None | Some (JObj _) => true
                | Some _ => false
                end
            | _ => false
            end
          else true
      end
  end.

(** ** The state of a job in a decoded status document, in the words of
    the specification *)


(** The exceptions with which the client leaves a decoded body of
    another shape. *)
Definition shape_error (e : exn) : Prop :=
  e = AttributeError \/ e = TypeError \/ e = KeyError "0".

(** ** Backends *)

(** A JSON text written with an apostrophe for each double quote. *)
Fixpoint jtext (s : string) : string :=
  match s with
  | EmptyString => EmptyString
  | String c r => String (if Ascii.eqb c "'" then Py.dquote else c) (jtext r)
  end.

(** A response with status 200 whose body decodes to [v]; [text] is the
    body as sent. *)
Definition ok_response (text : string) (v : json) : SplunkClient.response :=
  {| SplunkClient.status_code := 200;
     SplunkClient.text := text;
     SplunkClient.resp_json := Ok v |}.

(** What [json.loads] returns or raises on the lines of the stores used
    below, each line with its line feed: the texts [5], [1.5] and
    [{"a": 1}] are read as an integer, a float and a mapping; the other
    lines of these stores are no JSON texts. *)
Definition sample_loads : StructuredLogger.decoder :=
  fun line =>
    if String.eqb line ("5" ++ Py.nl) then Ok (JNum 5)
    else if String.eqb line ("1.5" ++ Py.nl) then Ok (JFloat "1.5")
    else if String.eqb line (jtext "{'a': 1}" ++ Py.nl)
    then Ok (JObj [("a", JNum 1)])
    else Raise JSONDecodeError.

(** The status document of a job. *)
Definition status_doc (done : bool) : SplunkClient.response :=
  ok_response (jtext "{'entry': [{'content': {'isDone': "
               ++ (if done then "true" else "false") ++ "}}]}")
              (JObj [("entry",
                      JArr [JObj [("content",
                                   JObj [("isDone", JBool done)])]])]).


(** A backend that answers every job creation with [created] and the [k]-th
    status request with [status k], each request taking 200 ticks. *)
Definition backend_of (created : SplunkClient.response)
           (status : nat -> SplunkClient.response) : SplunkClient.backend :=
  {| SplunkClient.post_job := fun _ => Ok created;
     SplunkClient.get_job := fun _ k => (200%nat, Ok (status k));
     SplunkClient.get_results_of :=
       fun _ _ => Ok (ok_response (jtext "{'results': []}")
                                  (JObj [("results", JArr [])])) |}.

(** Job created with the sid in the nested shape; not done on the first two
    status requests, done from the third. *)
Definition done_on_third : SplunkClient.backend :=
  backend_of (ok_response
                (jtext "{'entry': [{'content': {'sid': 'abc123'}}]}")
                (JObj [("entry",
                        JArr [JObj [("content",
                                     JObj [("sid", JStr "abc123")])]])]))
             (fun k => status_doc (2 <=? k)%nat).


(** Every status request is answered with status 500. *)
Definition failing_status : SplunkClient.backend :=
  backend_of (ok_response (jtext "{'sid': 'abc123'}")
                          (JObj [("sid", JStr "abc123")]))
             (fun _ => {| SplunkClient.status_code := 500;
                          SplunkClient.text := "Internal Server Error";
                          SplunkClient.resp_json := Raise JSONDecodeError |}).

(** Job creation is answered with status 300 and a body that holds a sid. *)
Definition multiple_choices : SplunkClient.backend :=
  backend_of {| SplunkClient.status_code := 300;
                SplunkClient.text := jtext "{'sid': 'abc123'}";
                SplunkClient.resp_json := Ok (JObj [("sid", JStr "abc123")]) |}
             (fun _ => status_doc true).

(** ** Rows and messages *)

(** A row without any of the priority fields; its fifth field is named
    [time]. *)
Definition row_with_time : dict :=
  [("a", JNum 1); ("b", JNum 2); ("c", JNum 3); ("d", JNum 4);
   ("time", JStr "09:00")].

(** One admin, raw queries enabled, the audit trail of [two_entries], nothing
    said, logged or requested yet. *)
Definition one_admin_world : App.world :=
  {| App.admin_manager := AdminManager.mk ["U1"] [] true false;
     App.audit_log := two_entries;
     App.said := [];
     App.logged := [];
     App.requests := [] |}.

(** The raw-query command sent by a user who is not in the roster. *)
Definition outsider_query : App.message :=
  {| App.user := Some "U9";
     App.channel := Some "C1";
     App.text := Some "!splunk-query index=main | head 5" |}.

Definition fixed_clock (n : nat) : string := "2024-05-01T10:00:02.000300".

(** A stand-in for the text of an exception. *)
Definition class_name (e : exn) : string :=
  match e with
  | RuntimeError msg => msg
  | HTTPError _ => "HTTPError"
  | JSONDecodeError => "JSONDecodeError"
  | AttributeError => "AttributeError"
  | KeyError _ => "KeyError"
  | TypeError => "TypeError"
  | IndexError => "IndexError"
  | ValueError => "ValueError"
  | RequestException => "RequestException"
  end.

(** ** Histories of the audit trail *)

(** One call of [log_action]: the clock reading, whether the append to the
    log file succeeds, and the arguments. *)
Definition logged_call : Type := (string * bool * StructuredLogger.action)%type.

Definition call_entry (c : logged_call) : json :=
  match c with (now, _, a) => StructuredLogger.log_entry now a end.

Definition call_user (c : logged_call) : string :=
  match c with (_, _, a) => StructuredLogger.user_id a end.

Definition call_command (c : logged_call) : string :=
  match c with (_, _, a) => StructuredLogger.command a end.

Definition call_now (c : logged_call) : string :=
  match c with (now, _, _) => now end.

(** The logger after the calls of [h], oldest first, on the logger [self]. *)
Definition replay_on (self : StructuredLogger.t) (h : list logged_call)
  : StructuredLogger.t :=
  fold_left (fun s c => match c with
                        | (now, ok, a) => StructuredLogger.log_action now ok a s
                        end) h self.

(** The same, on a logger started without a log file. *)
Definition replay (h : list logged_call) : StructuredLogger.t :=
  replay_on StructuredLogger.fresh h.

(** The entry [e] as a CSV export leaves it in memory. *)
Definition csv_rewritten (e : json) : json :=
  fst (StructuredLogger.export_csv_row e).

(** ** Words of a command line *)

Fixpoint no_blank (s : string) : bool :=
  match s with
  | EmptyString => true
  | String c r => negb (Py.isspace c) && no_blank r
  end.

(** A non-empty text without blanks. *)
Definition is_word (s : string) : bool :=
  negb (String.eqb s "") && no_blank s.

(** The text of an optional argument: [text or ""]. *)
Definition text_or_empty (text : option string) : string :=
  match text with Some t => t | None => "" end.

(** The last character of a text is there and is not a blank. *)
Fixpoint ends_nonblank (s : string) : bool :=
  match s with
  | EmptyString => false
  | String c EmptyString => negb (Py.isspace c)
  | String _ r => ends_nonblank r
  end.

(** The token [key=value] of a command line. *)
Definition param_token (kv : string * string) : string :=
  fst kv ++ "=" ++ snd kv.

(** A parameter whose key and value hold no blank and whose key holds no
    equals sign. *)
Definition plain_param (kv : string * string) : bool :=
  no_blank (fst kv) && no_blank (snd kv) && negb (Py.mem_char "=" (fst kv)).

(** ** JSON texts *)

(** The text of one member of a mapping, as [json.dumps] writes it. *)
Definition member_text (kv : string * json) : string :=
  match kv with (k, x) => Json.encode_string k ++ ": " ++ Json.dumps x end.

(** A text without a line terminator. *)
Fixpoint one_line (s : string) : bool :=
  match s with
  | EmptyString => true
  | String c r =>
      negb (Py.code c =? 10)%nat && negb (Py.code c =? 13)%nat && one_line r
  end.

(** A value in which the [repr] of every float holds no line terminator, as
    the [repr] of every float does. *)
Fixpoint plain_floats (v : json) : bool :=
  match v with
  | JFloat r => one_line r
  | JArr items => forallb plain_floats items
  | JObj members =>
      forallb (fun kv => match kv with (_, x) => plain_floats x end) members
  | _ => true
  end.

(** ** The log file *)

(** A character of the printable ASCII range. *)
Definition printable (c : ascii) : bool :=
  ((32 <=? Py.code c) && (Py.code c <=? 126))%nat.

Definition call_ok (c : logged_call) : bool :=
  match c with (_, ok, _) => ok end.

(** The content of a log file, empty while the file does not exist. *)
Definition content (fs : option string) : string :=
  match fs with Some c => c | None => "" end.

(** The text that holds the entries [es], one per line. *)
Definition trail_text (es : list json) : string :=
  fold_right (fun e t => Json.dumps e ++ Py.nl ++ t) "" es.

(** Two calls of [log_action]: the append of the first one succeeds, the
    append of the second one fails. *)
Definition first_call : logged_call :=
  ("2024-05-01T10:00:00.000100", true, admin_added).

Definition second_call : logged_call :=
  ("2024-05-01T10:00:01.000200", false, export_denied).

(** What [json.loads] returns on the line of the first call, the only line
    of the store after the two calls. *)
Definition reads_first_call : StructuredLogger.decoder :=
  fun line =>
    if String.eqb line (Json.dumps (call_entry first_call) ++ Py.nl)
    then Ok (call_entry first_call)
    else Raise JSONDecodeError.

(** ** The environment file *)

(** The file that holds the lines [bodies], each ended by a line feed. *)
Definition file_of (bodies : list string) : string :=
  fold_right (fun b t => b ++ Py.nl ++ t) "" bodies.

(** The text [key=value]. *)
Definition assignment (key value : string) : string := key ++ "=" ++ value.

(** The line [b] starts with [key=]. *)
Definition defines (key b : string) : bool := String.prefix (key ++ "=") b.
(* ================================================================== *)
(** * Properties *)

(** ** Lists of identifiers *)

Lemma mem_In (x : string) (xs : list string) :
  AdminManager.mem x xs = true <-> In x xs.
Proof.
  unfold AdminManager.mem. rewrite existsb_exists. split.
  - intros [y [Hy Heq]]. apply String.eqb_eq in Heq. now subst.
  - intros H. exists x. split; [assumption | apply String.eqb_refl].
Qed.

Lemma mem_app (x : string) (xs ys : list string) :
  AdminManager.mem x (xs ++ ys) = AdminManager.mem x xs || AdminManager.mem x ys.
Proof. unfold AdminManager.mem. apply existsb_app. Qed.

Lemma mem_singleton (x : string) : AdminManager.mem x [x] = true.
Proof. unfold AdminManager.mem. simpl. now rewrite String.eqb_refl. Qed.







(** ** Authorization policy *)

(** C3: [can_execute_spl] denies with the disabled-feature reason whenever the
    flag is off, whatever the admin status; denies with the access-restricted
    reason when the flag is on and the caller is not an admin; and grants,
    with the granted reason, exactly when the flag is on and the caller is an
    admin.  The three reasons are distinct texts. *)
Theorem can_execute_spl_decision :
  forall (self : AdminManager.t) (user_id : string) (channel_id : option string),
    (AdminManager.spl_query_enabled self = false ->
     AdminManager.can_execute_spl self user_id channel_id
     = (false, AdminManager.reason_disabled))
    /\ (AdminManager.spl_query_enabled self = true ->
        AdminManager.is_admin self user_id = false ->
        AdminManager.can_execute_spl self user_id channel_id
        = (false, AdminManager.reason_restricted))
    /\ (AdminManager.spl_query_enabled self = true ->
        AdminManager.is_admin self user_id = true ->
        AdminManager.can_execute_spl self user_id channel_id
        = (true, AdminManager.reason_granted))
    /\ (fst (AdminManager.can_execute_spl self user_id channel_id) = true
        <-> AdminManager.spl_query_enabled self = true
            /\ AdminManager.is_admin self user_id = true)
    /\ AdminManager.reason_disabled <> AdminManager.reason_restricted
    /\ AdminManager.reason_disabled <> AdminManager.reason_granted
    /\ AdminManager.reason_restricted <> AdminManager.reason_granted.
Proof.
  intros self user_id channel_id. unfold AdminManager.can_execute_spl.
  destruct (AdminManager.spl_query_enabled self) eqn:Eflag;
    destruct (AdminManager.is_admin self user_id) eqn:Eadm; simpl;
    repeat split; intros; try congruence; try discriminate;
    match goal with
    | H : _ /\ _ |- _ => destruct H; congruence
    | _ => idtac
    end.
Qed.

(** C4: the decision of [can_execute_spl] is the same for any two channel
    arguments, the absent one included; a caller can be granted raw-query
    access from a channel outside a non-empty allowlist. *)
Theorem can_execute_spl_ignores_channel :
  (forall (self : AdminManager.t) (user_id : string)
          (channel_a channel_b : option string),
      AdminManager.can_execute_spl self user_id channel_a
      = AdminManager.can_execute_spl self user_id channel_b)
  /\ (let self := AdminManager.mk ["U1"] ["C_ADMIN"] true false in
      AdminManager.admin_channel_ids self = ["C_ADMIN"]
      /\ AdminManager.is_admin_channel self (Some "C_OTHER") = false
      /\ AdminManager.can_execute_spl self "U1" (Some "C_OTHER")
         = (true, AdminManager.reason_granted)).
Proof.
  split.
  - intros self user_id channel_a channel_b. reflexivity.
  - repeat split.
Qed.






(** ** Audit trail *)

(** A logger constructed while the log file does not exist is the empty
    one, whatever the decoder. *)
Lemma init_without_file (loads : StructuredLogger.decoder) :
  StructuredLogger.init loads None = StructuredLogger.fresh.
Proof. reflexivity. Qed.

Lemma log_action_keeps (now : string) (ok : bool) (a : StructuredLogger.action)
      (self : StructuredLogger.t) (i : nat) (e : json) :
  nth_error (StructuredLogger.logs self) i = Some e ->
  nth_error (StructuredLogger.logs (StructuredLogger.log_action now ok a self)) i
  = Some e.
Proof.
  intros H. simpl. rewrite nth_error_app1; [exact H|].
  apply nth_error_Some. congruence.
Qed.

Lemma log_action_appends (now : string) (ok : bool)
      (a : StructuredLogger.action) (self : StructuredLogger.t) :
  StructuredLogger.logs (StructuredLogger.log_action now ok a self)
  = (StructuredLogger.logs self ++ [StructuredLogger.log_entry now a])%list.
Proof. reflexivity. Qed.

Lemma export_json_keeps (ok : bool) (out : string) (self : StructuredLogger.t) :
  fst (StructuredLogger.export_json ok out self) = self.
Proof. reflexivity. Qed.

Lemma export_csv_rows_length (ls : list json) :
  List.length (fst (StructuredLogger.export_csv_rows ls)) = List.length ls.
Proof.
  induction ls as [|log rest IH]; simpl; [reflexivity|].
  destruct (StructuredLogger.export_csv_row log) as [log' [u|e]]; simpl.
  - destruct (StructuredLogger.export_csv_rows rest) as [rest' r]. simpl in *.
    now rewrite IH.
  - reflexivity.
Qed.

(** C2: the audit trail is meant to be append-only, and [log_action],
    [export_json], [export_txt] and the query helpers leave its entries alone;
    [export_csv] does not.  After a CSV export of a trail holding the entry of
    an [!admin-add], the [changes] field of that entry in the in-memory
    sequence is no longer the mapping that was logged but its JSON text, and a
    second export encodes that text again. *)
Theorem export_csv_rewrites_logged_entries :
  forall loads : StructuredLogger.decoder,
  let before := StructuredLogger.log_action "2024-05-01T10:00:00.000100" true
                  admin_added (StructuredLogger.init loads None) in
  let once := fst (StructuredLogger.export_csv true "logs_export.csv" before) in
  let twice := fst (StructuredLogger.export_csv true "logs_export.csv" once) in
  (e <- StructuredLogger.index (StructuredLogger.logs before) 0 ;;
   Json.getitem e "changes")
  = Ok (JObj [("new_admin", JStr "U2"); ("total_admins", JNum 2)])
  /\ snd (StructuredLogger.export_csv true "logs_export.csv" before)
     = Some "logs_export.csv"
  /\ (e <- StructuredLogger.index (StructuredLogger.logs once) 0 ;;
      Json.getitem e "changes")
     = Ok (JStr (jtext "{'new_admin': 'U2', 'total_admins': 2}"))
  /\ (e <- StructuredLogger.index (StructuredLogger.logs twice) 0 ;;
      Json.getitem e "changes")
     = Ok (JStr (jtext "'{\'new_admin\': \'U2\', \'total_admins\': 2}'"))
  /\ (forall d : dict,
         fst (StructuredLogger.export_csv_row (JObj d))
         = JObj (dict_set "changes"
                   (JStr (Json.dumps (match dict_get "changes" d with
                                      | Some c => c
                                      | None => JObj []
                                      end))) d)).
Proof.
  intros loads. rewrite init_without_file.
  cbv zeta. repeat split; vm_compute; reflexivity.
Qed.

Lemma slice_from_neg {A} (n : Z) (xs : list A) :
  (1 <= n)%Z ->
  Py.slice_from (- n) xs
  = skipn (List.length xs - Z.to_nat (Z.min n (Z.of_nat (List.length xs)))) xs.
Proof.
  intros Hn. unfold Py.slice_from.
  destruct (Z.ltb_spec (- n) 0) as [_|H]; [|lia].
  f_equal. lia.
Qed.

(** For a positive limit [get_recent_logs] returns the last
    [min limit (len logs)] entries, in order. *)
Lemma get_recent_logs_positive (self : StructuredLogger.t) (limit : Z) :
  (1 <= limit)%Z ->
  let total := List.length (StructuredLogger.logs self) in
  let n := Z.to_nat (Z.min limit (Z.of_nat total)) in
  StructuredLogger.get_recent_logs self limit
  = skipn (total - n) (StructuredLogger.logs self)
  /\ List.length (StructuredLogger.get_recent_logs self limit) = n.
Proof.
  intros Hl total n. unfold StructuredLogger.get_recent_logs.
  rewrite slice_from_neg by assumption. fold total. fold n.
  split; [reflexivity|]. rewrite length_skipn. fold total.
  subst n. lia.
Qed.

(** C6: [get_recent_logs] is to return the last [min n total] entries.  For
    the limit 0 it returns the whole trail instead of no entry: the slice
    [logs[-0:]] starts at the first entry. *)
Theorem get_recent_logs_zero_returns_all :
  (forall self : StructuredLogger.t,
      StructuredLogger.get_recent_logs self 0 = StructuredLogger.logs self)
  /\ List.length (StructuredLogger.get_recent_logs two_entries 0) = 2%nat
  /\ List.length (StructuredLogger.get_recent_logs two_entries 1) = 1%nat.
Proof.
  split; [|split; reflexivity].
  intros self. unfold StructuredLogger.get_recent_logs, Py.slice_from. simpl.
  replace (Z.to_nat _) with 0%nat by lia. reflexivity.
Qed.

Lemma filterM_raises {A} (p : A -> result bool) (xs : list A) (x : A) :
  In x xs -> Py.raises (p x) = true -> Py.raises (Py.filterM p xs) = true.
Proof.
  intros Hin Hx. induction xs as [|y r IH]; [contradiction|].
  simpl. destruct Hin as [->|Hin].
  - destruct (p x); [discriminate | reflexivity].
  - destruct (p y) as [b|e]; simpl; [|reflexivity].
    specialize (IH Hin). destruct (Py.filterM p r); [discriminate | reflexivity].
Qed.

Lemma field_is_raises (key value : string) (log : json) :
  Py.raises (Json.getitem log key) = true ->
  Py.raises (StructuredLogger.field_is key value log) = true.
Proof.
  unfold StructuredLogger.field_is. destruct (Json.getitem log key); simpl;
    [discriminate | reflexivity].
Qed.

Lemma export_txt_entries_raises (ls : list json) (x : json) :
  In x ls ->
  Py.raises (snd (StructuredLogger.export_txt_entry x)) = true ->
  Py.raises (snd (StructuredLogger.export_txt_entries ls)) = true.
Proof.
  intros Hin Hx. induction ls as [|y r IH]; [contradiction|].
  simpl. destruct Hin as [->|Hin].
  - destruct (StructuredLogger.export_txt_entry x) as [t [u|e]];
      [discriminate | reflexivity].
  - destruct (StructuredLogger.export_txt_entry y) as [t [u|e]]; [|reflexivity].
    specialize (IH Hin).
    destruct (StructuredLogger.export_txt_entries r) as [more [u'|e']];
      [discriminate | reflexivity].
Qed.

(** An entry without a [timestamp] field, or one that is no mapping, stops
    [export_txt]. *)
Lemma export_txt_entry_needs_timestamp (entry : json) :
  Py.raises (Json.getitem entry "timestamp") = true ->
  Py.raises (snd (StructuredLogger.export_txt_entry entry)) = true.
Proof.
  intros H. unfold StructuredLogger.export_txt_entry,
    StructuredLogger.timestamp_part.
  destruct (Json.getitem entry "timestamp"); [discriminate | reflexivity].
Qed.

(** C10 (as amended): [load_logs] keeps the value of every non-blank line
    that the decoder accepts, whatever its shape, and goes on after a line
    on which the decoder raises [JSONDecodeError]; another exception of the
    decoder ends the load, with the entries read so far.  On a trail holding
    an entry whose [user_id] (or [command]) cannot be looked up,
    [get_user_logs] (or [get_logs_by_command]) raises; [export_txt] stops at
    the first entry it cannot render, catches the error and returns [None]
    instead of a path.  The store with the lines [5], [1.5], [{"a": 1}] and
    [not json] shows all of it. *)
Theorem load_logs_checks_syntax_only :
  (forall (loads : StructuredLogger.decoder) (acc : list json) (line : string)
          (rest : list string) (v : json),
      AdminManager.nonempty (Py.strip line) = true ->
      loads line = Ok v ->
      StructuredLogger.load_lines loads acc (line :: rest)
      = StructuredLogger.load_lines loads (acc ++ [v])%list rest)
  /\ (forall (loads : StructuredLogger.decoder) (acc : list json)
             (line : string) (rest : list string),
         loads line = Raise JSONDecodeError ->
         StructuredLogger.load_lines loads acc (line :: rest)
         = StructuredLogger.load_lines loads acc rest)
  /\ (forall (loads : StructuredLogger.decoder) (acc : list json)
             (line : string) (rest : list string) (e : exn),
         AdminManager.nonempty (Py.strip line) = true ->
         loads line = Raise e ->
         e <> JSONDecodeError ->
         StructuredLogger.load_lines loads acc (line :: rest) = acc)
  /\ (forall (self : StructuredLogger.t) (entry : json) (user_id : string),
         In entry (StructuredLogger.logs self) ->
         Py.raises (Json.getitem entry "user_id") = true ->
         Py.raises (StructuredLogger.get_user_logs self user_id) = true)
  /\ (forall (self : StructuredLogger.t) (entry : json) (command : string),
         In entry (StructuredLogger.logs self) ->
         Py.raises (Json.getitem entry "command") = true ->
         Py.raises (StructuredLogger.get_logs_by_command self command) = true)
  /\ (forall (self : StructuredLogger.t) (entry : json) (now out : string),
         In entry (StructuredLogger.logs self) ->
         Py.raises (snd (StructuredLogger.export_txt_entry entry)) = true ->
         snd (StructuredLogger.export_txt true now out self) = None)
  /\ (let content := "5" ++ Py.nl ++ "1.5" ++ Py.nl ++ jtext "{'a': 1}" ++ Py.nl
                     ++ "not json" ++ Py.nl in
      let self := StructuredLogger.init sample_loads (Some content) in
      map sample_loads (StructuredLogger.file_lines "" content)
      = [Ok (JNum 5); Ok (JFloat "1.5"); Ok (JObj [("a", JNum 1)]);
         Raise JSONDecodeError]
      /\ StructuredLogger.logs self
         = [JNum 5; JFloat "1.5"; JObj [("a", JNum 1)]]
      /\ StructuredLogger.get_user_logs self "U1" = Raise TypeError
      /\ StructuredLogger.get_logs_by_command self "!admin-add" = Raise TypeError
      /\ snd (StructuredLogger.export_txt true "2024-05-01T10:00:00"
                                          "logs_export.txt" self) = None
      /\ StructuredLogger.get_user_logs
           (StructuredLogger.init sample_loads
              (Some (jtext "{'a': 1}" ++ Py.nl))) "U1"
         = Raise (KeyError "user_id")).
Proof.
  split; [|split; [|split; [|split; [|split; [|split]]]]].
  - intros loads acc line rest v Hline Hv.
    cbn [StructuredLogger.load_lines]. unfold StructuredLogger.load_line.
    now rewrite Hline, Hv.
  - intros loads acc line rest Hv.
    cbn [StructuredLogger.load_lines]. unfold StructuredLogger.load_line.
    rewrite Hv. now destruct (AdminManager.nonempty (Py.strip line)).
  - intros loads acc line rest e Hline Hv He.
    cbn [StructuredLogger.load_lines]. unfold StructuredLogger.load_line.
    rewrite Hline, Hv. destruct e; congruence.
  - intros self entry user_id Hin Hbad. unfold StructuredLogger.get_user_logs.
    apply (filterM_raises _ _ entry Hin). now apply field_is_raises.
  - intros self entry command Hin Hbad.
    unfold StructuredLogger.get_logs_by_command.
    apply (filterM_raises _ _ entry Hin). now apply field_is_raises.
  - intros self entry now out Hin Hbad. unfold StructuredLogger.export_txt.
    pose proof (export_txt_entries_raises _ _ Hin Hbad) as H.
    destruct (StructuredLogger.export_txt_entries (StructuredLogger.logs self))
      as [text [u|e]]; [discriminate | reflexivity].
  - cbv zeta. repeat split; vm_compute; reflexivity.
Qed.

(** C10, as stated, fails for [export_txt]: on the trail loaded from a store
    whose only line is [5] it does not raise; it writes the header, meets the
    error inside its [try] block and returns [None]. *)
Lemma export_txt_returns_none_counterexample :
  let self := StructuredLogger.init sample_loads (Some ("5" ++ Py.nl)) in
  StructuredLogger.logs self = [JNum 5]
  /\ StructuredLogger.export_txt_entry (JNum 5) = ("", Raise TypeError)
  /\ snd (StructuredLogger.export_txt true "2024-05-01T10:00:00"
                                      "logs_export.txt" self) = None.
Proof. cbv zeta. repeat split; vm_compute; reflexivity. Qed.

(** ** Search backend client *)


Section Wait.

Variable b : SplunkClient.backend.
Variable sid : string.
Variables max_wait poll_interval : Z.


Hypothesis interval_nonneg : (0 <= poll_interval)%Z.





(** When every round takes time, the clock passes every budget, and there
    is a first test of the loop condition that finds the budget used up. *)
Hypothesis rounds_take_time :
  forall j, (0 < Z.of_nat (fst (SplunkClient.get_job b sid j))
                 + poll_interval)%Z.



End Wait.




(** The lookup of the job id by the client against the two shapes of the
    specification. *)
Lemma nested_sid_cases (d : dict) :
  let found :=
    top <- Json.get (JObj d) "sid" ;; SplunkClient.nested_sid (JObj d) top in
  match spec_job_id d with
  | Some sid => found = Ok sid /\ Json.truthy sid = true
  | None =>
      if entry_shape_ok d
      then exists sid, found = Ok sid /\ Json.truthy sid = false
      else exists e, shape_error e /\ found = Raise e
  end.
Proof.
  cbv zeta.
  unfold entry_shape_ok, spec_job_id, top_level_sid, first_entry_sid,
    shape_error, SplunkClient.nested_sid, present,
    SplunkClient.contains_key, dict_has, Json.getitem, Json.getitem0.
  cbn [Py.bind Json.get Json.get_default].
  assert (Hfalsy : forall top,
             Json.truthy top = false ->
             match dict_get "entry" d with
             | Some entry =>
                 Json.truthy entry = true ->
                 match
                   match entry with
                   | JArr (JObj first :: _) =>
                       match dict_get "content" first with
                       | Some (JObj content) =>
                           match dict_get "sid" content with
                           | Some x => if Json.truthy x then Some x else None
                           | None => None
                           end
                       | _ => None
                       end
                   | _ => None
                   end
                 with
                 | Some sid =>
                     (first <- Json.getitem0 entry ;;
                      content <- Json.get_default first "content" (JObj []) ;;
                      Json.get content "sid") = Ok sid
                     /\ Json.truthy sid = true
                 | None =>
                     if match entry with
                        | JArr (JObj first :: _) =>
                            match dict_get "content" first with
                            | Some (JObj _) | None => true
                            | _ => false
                            end
                        | _ => false
                        end
                     then exists sid,
                         (first <- Json.getitem0 entry ;;
                          content <- Json.get_default first "content" (JObj []) ;;
                          Json.get content "sid") = Ok sid
                         /\ Json.truthy sid = false
                     else exists e,
                         (e = AttributeError \/ e = TypeError
                          \/ e = KeyError "0")
                         /\ (first <- Json.getitem0 entry ;;
                             content <- Json.get_default first "content"
                                                         (JObj []) ;;
                             Json.get content "sid") = Raise e
                 end
             | None => True
             end).
  { intros top Htop. destruct (dict_get "entry" d) as [entry|]; [|exact I].
    intros Hentry.
    destruct entry as [|b|n|r|s|items|first_d];
      try discriminate Hentry;
      try (eexists; split; [|reflexivity]; auto).
    - destruct s as [|c s]; [discriminate Hentry|].
      eexists; split; [|reflexivity]; auto.
    - destruct items as [|first rest]; [discriminate Hentry|].
      destruct first as [|b|n|r|s|items|first_d];
        try (eexists; split; [|reflexivity]; auto).
      cbn [Json.getitem0 Py.bind Json.get_default].
      destruct (dict_get "content" first_d) as [content|];
        [|exists JNull; split; reflexivity].
      destruct content as [|b|n|r|s|items|content_d];
        try (eexists; split; [|reflexivity]; auto).
      cbn [Py.bind Json.get Json.get_default].
      destruct (dict_get "sid" content_d) as [sid|];
        [|exists JNull; split; reflexivity].
      destruct (Json.truthy sid) eqn:Esid;
        [split; [reflexivity | exact Esid]
        |exists sid; split; [reflexivity | exact Esid]]. }
  destruct (dict_get "sid" d) as [top|].
  - destruct (Json.truthy top) eqn:Etop; cbn [negb].
    + split; [reflexivity | exact Etop].
    + specialize (Hfalsy top Etop).
      destruct (dict_get "entry" d) as [entry|]; cbn [Py.bind];
        [|exists top; split; [reflexivity | exact Etop]].
      destruct (Json.truthy entry) eqn:Eentry; [exact (Hfalsy eq_refl)|].
      destruct entry as [|b|n|r|s|[|first rest]|first_d];
        try discriminate Eentry;
        (exists top; split; [reflexivity | exact Etop]).
  - specialize (Hfalsy JNull eq_refl). cbn [Json.truthy negb].
    destruct (dict_get "entry" d) as [entry|]; cbn [Py.bind];
      [|exists JNull; split; reflexivity].
    destruct (Json.truthy entry) eqn:Eentry; [exact (Hfalsy eq_refl)|].
    destruct entry as [|b|n|r|s|[|first rest]|first_d];
      try discriminate Eentry;
      (exists JNull; split; reflexivity).
Qed.

(** C8 (as amended): for every response to a job-creation request,
    [dispatch_saved_search] and [run_spl_query] fail with a dispatch error
    carrying the status and the body text verbatim when the status is 400 or
    above.  For a lower status they pass on the exception of a body that
    does not decode and fail with an attribute error on a decoded body that
    is no mapping; on a mapping they return the job id found in one of the
    two shapes (the top-level [sid], else the [sid] in the [content] of the
    first entry), and where there is none they fail with a dispatch error
    that shows the body, if the [entry] field is absent, counts as false or
    is a list whose first element is a mapping with a mapping or nothing as
    its [content], and with an attribute, type or key error if the [entry]
    field has another shape. *)
Theorem dispatch_error_contract :
  forall (b : SplunkClient.backend) (resp : SplunkClient.response)
         (name spl earliest latest : string),
    (forall data, SplunkClient.post_job b data = Ok resp) ->
    let created := SplunkClient.dispatch_saved_search b name earliest latest in
    let queried := SplunkClient.run_spl_query b spl earliest latest in
    ((400 <= SplunkClient.status_code resp)%Z ->
     created = Raise (RuntimeError
                        ("Splunk job create failed ("
                         ++ Py.str_of_Z (SplunkClient.status_code resp) ++ "): "
                         ++ SplunkClient.text resp))
     /\ queried = Raise (RuntimeError
                           ("Splunk query failed ("
                            ++ Py.str_of_Z (SplunkClient.status_code resp) ++ "): "
                            ++ SplunkClient.text resp)))
    /\ ((SplunkClient.status_code resp < 400)%Z ->
        forall e : exn,
          SplunkClient.resp_json resp = Raise e ->
          created = Raise e /\ queried = Raise e)
    /\ ((SplunkClient.status_code resp < 400)%Z ->
        forall v : json,
          SplunkClient.resp_json resp = Ok v ->
          (forall d : dict, v <> JObj d) ->
          created = Raise AttributeError /\ queried = Raise AttributeError)
    /\ ((SplunkClient.status_code resp < 400)%Z ->
        forall d : dict,
          SplunkClient.resp_json resp = Ok (JObj d) ->
          match spec_job_id d with
          | Some sid => created = Ok sid /\ queried = Ok sid
          | None =>
              if entry_shape_ok d then
                created = Raise (RuntimeError
                                   ("Could not get SID from Splunk response: "
                                    ++ Json.str (JObj d)))
                /\ queried = Raise (RuntimeError
                                      ("Could not get SID from Splunk response: "
                                       ++ Json.str (JObj d)))
              else
                exists e : exn,
                  shape_error e /\ created = Raise e /\ queried = Raise e
          end).
Proof.
  intros b resp name spl earliest latest Hpost created queried.
  subst created queried.
  unfold SplunkClient.dispatch_saved_search, SplunkClient.run_spl_query.
  rewrite !Hpost. cbn [Py.bind].
  split; [|split; [|split]].
  - intros Hst.
    destruct (Z.leb_spec 400 (SplunkClient.status_code resp)) as [_|Hlt]; [|lia].
    split; reflexivity.
  - intros Hst e Hbody.
    destruct (Z.leb_spec 400 (SplunkClient.status_code resp)) as [Hge|_]; [lia|].
    rewrite Hbody. split; reflexivity.
  - intros Hst v Hbody Hshape.
    destruct (Z.leb_spec 400 (SplunkClient.status_code resp)) as [Hge|_]; [lia|].
    rewrite Hbody. cbn [Py.bind].
    destruct v; try (split; reflexivity).
    exfalso. eapply Hshape. reflexivity.
  - intros Hst d Hbody.
    destruct (Z.leb_spec 400 (SplunkClient.status_code resp)) as [Hge|_]; [lia|].
    rewrite Hbody. cbn [Py.bind].
    pose proof (nested_sid_cases d) as Hspec. cbv zeta in Hspec.
    destruct (spec_job_id d) as [found|].
    + destruct Hspec as [Hfound Ht].
      change (Json.get (JObj d) "sid")
        with (Ok (match dict_get "sid" d with Some x => x | None => JNull end))
        in Hfound |- *.
      cbn [Py.bind] in Hfound |- *. rewrite Hfound. cbn [Py.bind].
      rewrite Ht. split; reflexivity.
    + destruct (entry_shape_ok d).
      * destruct Hspec as [sid [Hfound Ht]].
        change (Json.get (JObj d) "sid")
          with (Ok (match dict_get "sid" d with Some x => x | None => JNull end))
          in Hfound |- *.
        cbn [Py.bind] in Hfound |- *. rewrite Hfound. cbn [Py.bind].
        rewrite Ht. split; reflexivity.
      * destruct Hspec as [e [He Hfound]].
        change (Json.get (JObj d) "sid")
          with (Ok (match dict_get "sid" d with Some x => x | None => JNull end))
          in Hfound |- *.
        cbn [Py.bind] in Hfound |- *. rewrite Hfound.
        exists e. split; [exact He|]. split; reflexivity.
Qed.

(** A creation answered with status 200 and the sid in the nested shape. *)
Lemma dispatch_error_contract_witness :
  SplunkClient.dispatch_saved_search done_on_third "failed_logins" "-2h" "now"
  = Ok (JStr "abc123")
  /\ SplunkClient.run_spl_query done_on_third "index=main | head 5" "-2h" "now"
     = Ok (JStr "abc123").
Proof.
  refine (proj2 (proj2 (proj2
            (dispatch_error_contract done_on_third
               (ok_response
                  (jtext "{'entry': [{'content': {'sid': 'abc123'}}]}")
                  (JObj [("entry",
                          JArr [JObj [("content",
                                       JObj [("sid", JStr "abc123")])]])]))
               "failed_logins" "index=main | head 5" "-2h" "now"
               (fun _ => eq_refl))))
            _ [("entry", JArr [JObj [("content", JObj [("sid", JStr "abc123")])]])]
            _); reflexivity.
Defined.

(** C8, as stated, fails: a creation answered with the non-2xx status 300 and
    a body holding a sid is not rejected; both calls return the sid. *)
Lemma dispatch_status_counterexample :
  SplunkClient.post_job multiple_choices
    {| SplunkClient.search := "index=main | head 5";
       SplunkClient.earliest_time := "-24h";
       SplunkClient.latest_time := "now";
       SplunkClient.exec_mode := "normal" |}
  = Ok {| SplunkClient.status_code := 300;
          SplunkClient.text := jtext "{'sid': 'abc123'}";
          SplunkClient.resp_json := Ok (JObj [("sid", JStr "abc123")]) |}
  /\ SplunkClient.dispatch_saved_search multiple_choices "failed_logins"
                                        "-24h" "now"
     = Ok (JStr "abc123")
  /\ SplunkClient.run_spl_query multiple_choices "index=main | head 5"
                                "-24h" "now"
     = Ok (JStr "abc123").
Proof. repeat split; vm_compute; reflexivity. Qed.

(** ** Result formatter *)

Lemma dict_has_key (k : string) (d : dict) :
  In k (dict_keys d) -> dict_has k d = true.
Proof.
  unfold dict_has, dict_keys. induction d as [|[k' v] r IH]; simpl.
  - contradiction.
  - intros [->|Hin].
    + now rewrite String.eqb_refl.
    + destruct (String.eqb k k'); [reflexivity | now apply IH].
Qed.

Lemma In_firstn {A} (n : nat) (xs : list A) (x : A) :
  In x (firstn n xs) -> In x xs.
Proof.
  revert xs. induction n as [|n IH]; intros [|y r]; simpl; try contradiction.
  intros [->|Hin]; [now left | right; now apply IH].
Qed.

Lemma row_lines_nth (rows : list dict) :
  forall (start i : nat) (row : dict),
    nth_error rows i = Some row ->
    nth_error (SlackHandlers.row_lines start rows) i
    = Some (Py.str_of_nat (start + i) ++ ". " ++ SlackHandlers.snippet row).
Proof.
  induction rows as [|r rest IH]; intros start [|i] row H; simpl in *;
    try discriminate.
  - injection H as ->. now rewrite Nat.add_0_r.
  - rewrite (IH (S start) i row H). now rewrite Nat.add_succ_r.
Qed.

Lemma row_lines_length (rows : list dict) (start : nat) :
  List.length (SlackHandlers.row_lines start rows) = List.length rows.
Proof.
  revert start. induction rows as [|r rest IH]; intros start; simpl;
    [reflexivity | now rewrite IH].
Qed.

(** C9 (as amended): on no rows [format_results] returns the no-results
    message, which holds the sid; on rows it joins three heading lines and one
    numbered line per row.  A row shows at most four of its fields: the first
    four, in priority order, of [_time], [host], [source], [sourcetype],
    [user], [src], [dest], [count] that it has, or, when it has none of them,
    its own first four fields in its own order. *)
Theorem format_results_layout :
  forall (name sid : string) (rows : list dict),
    SlackHandlers.format_results name sid []
    = "✅ *" ++ name ++ "* ran successfully." ++ Py.nl
      ++ "• SID: `" ++ sid ++ "`" ++ Py.nl ++ "• No results found."
    /\ (forall (row : dict) (rest : list dict),
           rows = row :: rest ->
           SlackHandlers.format_results name sid rows
           = Py.join Py.nl
               (List.app
                  ["✅ *" ++ name ++ "* results (top "
                     ++ Py.str_of_nat (List.length rows) ++ "):";
                   "• SID: `" ++ sid ++ "`";
                   ""]
                  (SlackHandlers.row_lines 1 rows)))
    /\ List.length (SlackHandlers.row_lines 1 rows) = List.length rows
    /\ (forall (i : nat) (row : dict),
           nth_error rows i = Some row ->
           nth_error (SlackHandlers.row_lines 1 rows) i
           = Some (Py.str_of_nat (S i) ++ ". "
                   ++ Py.join ", " (map (SlackHandlers.field row)
                                        (SlackHandlers.show_keys row))))
    /\ (forall row : dict,
           let hits := filter (fun k => dict_has k row)
                              SlackHandlers.keys_priority in
           (List.length (SlackHandlers.show_keys row) <= 4)%nat
           /\ (forall k, In k (SlackHandlers.show_keys row) ->
                         dict_has k row = true)
           /\ (hits <> [] -> SlackHandlers.show_keys row = firstn 4 hits)
           /\ (hits = [] ->
               SlackHandlers.show_keys row = firstn 4 (dict_keys row)))
    /\ SlackHandlers.keys_priority
       = ["_time"; "host"; "source"; "sourcetype"; "user"; "src"; "dest";
          "count"].
Proof.
  intros name sid rows.
  split; [reflexivity|].
  split; [intros row rest ->; reflexivity|].
  split; [apply row_lines_length|].
  split; [intros i row H; apply (row_lines_nth rows 1 i row H)|].
  split; [|reflexivity].
  intros row hits. unfold SlackHandlers.show_keys. fold hits.
  assert (Hhits : forall k, In k (firstn 4 hits) -> dict_has k row = true).
  { intros k Hk. apply In_firstn in Hk. subst hits.
    apply filter_In in Hk. tauto. }
  destruct hits as [|h hs] eqn:Ehits.
  - rewrite firstn_nil. repeat split.
    + apply firstn_le_length.
    + intros k Hk. apply dict_has_key. now apply In_firstn in Hk.
    + intros Hne. now contradiction Hne.
  - remember (firstn 4 (h :: hs)) as shown eqn:Eshown.
    assert (Hlen : (List.length shown <= 4)%nat)
      by (subst shown; apply firstn_le_length).
    destruct shown as [|s0 ss]; [simpl in Eshown; discriminate|].
    repeat split; try assumption.
    intros Hnil. discriminate.
Qed.

(** C9, as stated with [time] in the priority list, fails: a row whose fifth
    field is [time] shows its first four fields and not [time]. *)
Lemma format_results_time_counterexample :
  dict_has "time" row_with_time = true
  /\ SlackHandlers.show_keys row_with_time = ["a"; "b"; "c"; "d"]
  /\ SlackHandlers.format_results "failed_logins" "abc123" [row_with_time]
     = "✅ *failed_logins* results (top 1):" ++ Py.nl
       ++ "• SID: `abc123`" ++ Py.nl ++ Py.nl
       ++ "1. a=1, b=2, c=3, d=4".
Proof. repeat split; vm_compute; reflexivity. Qed.

(** ** Raw-query command *)

(** C1: a raw query from a user who is not an admin is denied before any
    request goes to the backend, and the denial is to be recorded as one
    [DENIED] entry of the audit trail.  The handler answers with the reason
    and sends nothing to the backend, but it records the denial only through
    [admin_manager.audit_log], which writes one line, holding a preview of at
    most 50 characters, to the operational log: the audit trail is left as it
    was. *)
Theorem denied_query_skips_audit_trail :
  forall (splunk : SplunkClient.backend) (limit : Z) (exc_text : exn -> string)
         (clock : nat -> string) (m : App.message) (w : App.world),
    AdminManager.is_admin (App.admin_manager w) (App.get_or_empty (App.user m))
    = false ->
    let user_id := App.get_or_empty (App.user m) in
    let channel_id := App.get_or_empty (App.channel m) in
    let query := Py.strip (Py.replace "!splunk-query" ""
                                      (App.get_or_empty (App.text m))) in
    let reason := snd (AdminManager.can_execute_spl (App.admin_manager w)
                                                    user_id (Some channel_id)) in
    App.handle_splunk_query splunk limit exc_text clock m w
    = Some {| App.admin_manager := App.admin_manager w;
              App.audit_log := App.audit_log w;
              App.said := (App.said w ++ [reason])%list;
              App.logged :=
                List.app (App.logged w)
                  ["AUDIT: DENIED_SPL_QUERY | User: " ++ user_id
                   ++ " | Details: "
                   ++ Json.repr (JObj [("reason", JStr reason);
                                       ("channel", JStr channel_id);
                                       ("query_preview",
                                        JStr (Py.take 50 query))])];
              App.requests := App.requests w |}
    /\ (String.length (Py.take 50 query) <= 50)%nat.
Proof.
  intros splunk limit exc_text clock m w Hnot user_id channel_id query reason.
  split.
  - unfold App.handle_splunk_query. fold user_id channel_id query.
    subst reason. unfold AdminManager.can_execute_spl.
    fold user_id in Hnot. rewrite Hnot.
    destruct (AdminManager.spl_query_enabled (App.admin_manager w));
      reflexivity.
  - generalize query. intros s. clear.
    assert (H : forall n t, (String.length (Py.take n t) <= n)%nat).
    { induction n as [|n IH]; intros [|c t]; simpl; try lia.
      specialize (IH t). lia. }
    apply H.
Qed.

(** The command of [outsider_query] in [one_admin_world]: the trail keeps its
    two entries and no request is sent. *)
Lemma denied_query_skips_audit_trail_witness :
  AdminManager.is_admin (App.admin_manager one_admin_world)
                        (App.get_or_empty (App.user outsider_query)) = false
  /\ exists w' : App.world,
      App.handle_splunk_query done_on_third 5 class_name fixed_clock
                              outsider_query one_admin_world = Some w'
      /\ App.audit_log w' = two_entries
      /\ App.requests w' = []
      /\ App.said w' = [AdminManager.reason_restricted].
Proof.
  split; [reflexivity|].
  eexists. split.
  - exact (proj1 (denied_query_skips_audit_trail
                    done_on_third 5 class_name fixed_clock
                    outsider_query one_admin_world eq_refl)).
  - repeat split.
Defined.

(* ================================================================== *)
(** * Further properties of the modelled code *)

(** ** Admin roster *)

Lemma list_remove_In (u x : string) (xs : list string) :
  In x (AdminManager.list_remove u xs) -> In x xs.
Proof.
  induction xs as [|y r IH]; simpl; [tauto|].
  destruct (String.eqb u y); simpl; tauto.
Qed.

Lemma list_remove_other (u x : string) (xs : list string) :
  x <> u -> In x xs -> In x (AdminManager.list_remove u xs).
Proof.
  intros Hne. induction xs as [|y r IH]; simpl; [tauto|].
  destruct (String.eqb_spec u y) as [->|Hy]; simpl.
  - intros [Heq|Hin]; [congruence | assumption].
  - tauto.
Qed.

Lemma list_remove_NoDup (u : string) (xs : list string) :
  NoDup xs -> NoDup (AdminManager.list_remove u xs).
Proof.
  induction 1 as [|y r Hy Hr IH]; simpl; [constructor|].
  destruct (String.eqb u y); [assumption|].
  constructor; [|assumption].
  intros Hin. apply Hy. now apply list_remove_In in Hin.
Qed.

Lemma list_remove_last (u : string) (xs : list string) :
  ~ In u xs -> AdminManager.list_remove u (xs ++ [u]) = xs.
Proof.
  induction xs as [|y r IH]; simpl; intros Hn.
  - now rewrite String.eqb_refl.
  - destruct (String.eqb_spec u y) as [->|Hy]; [tauto|].
    f_equal. apply IH. tauto.
Qed.

(** Adding a user who is not in the roster and removing the same user again
    gives back the manager that was there before, roster order included. *)
Theorem remove_after_add_restores :
  forall (self : AdminManager.t) (u : string),
    AdminManager.mem u (AdminManager.admin_user_ids self) = false ->
    AdminManager.remove_admin (AdminManager.add_admin self u) u = self.
Proof.
  intros [ids chans flag appr] u Hnew. simpl in Hnew.
  unfold AdminManager.add_admin. simpl. rewrite Hnew. simpl.
  unfold AdminManager.remove_admin. simpl.
  rewrite mem_app, mem_singleton, orb_true_r.
  unfold AdminManager.set_admin_user_ids. simpl. f_equal.
  apply list_remove_last. intros Hin. apply mem_In in Hin. congruence.
Qed.

Lemma remove_after_add_restores_witness :
  AdminManager.remove_admin
    (AdminManager.add_admin (AdminManager.mk ["U1"; "U2"] ["C1"] true false) "U3")
    "U3"
  = AdminManager.mk ["U1"; "U2"] ["C1"] true false.
Proof.
  apply (remove_after_add_restores
           (AdminManager.mk ["U1"; "U2"] ["C1"] true false) "U3").
  reflexivity.
Defined.

(** A roster without duplicates stays without duplicates under [add_admin]
    and [remove_admin]. *)
Theorem roster_stays_duplicate_free :
  forall (self : AdminManager.t) (u : string),
    NoDup (AdminManager.admin_user_ids self) ->
    NoDup (AdminManager.admin_user_ids (AdminManager.add_admin self u))
    /\ NoDup (AdminManager.admin_user_ids (AdminManager.remove_admin self u)).
Proof.
  intros self u Hnd. split.
  - unfold AdminManager.add_admin.
    destruct (AdminManager.mem u (AdminManager.admin_user_ids self)) eqn:E;
      simpl; [assumption|].
    apply NoDup_app; [assumption | repeat constructor; simpl; tauto |].
    intros x Hx [<-|[]]. apply mem_In in Hx. congruence.
  - unfold AdminManager.remove_admin.
    destruct (AdminManager.mem u (AdminManager.admin_user_ids self)); simpl;
      [now apply list_remove_NoDup | assumption].
Qed.

Lemma roster_stays_duplicate_free_witness :
  NoDup (AdminManager.admin_user_ids
           (AdminManager.add_admin
              (AdminManager.mk ["U1"; "U2"] [] true false) "U2"))
  /\ NoDup (AdminManager.admin_user_ids
              (AdminManager.remove_admin
                 (AdminManager.mk ["U1"; "U2"] [] true false) "U2")).
Proof.
  apply (roster_stays_duplicate_free
           (AdminManager.mk ["U1"; "U2"] [] true false) "U2").
  repeat constructor; simpl; intuition discriminate.
Defined.

(** [add_admin u] and [remove_admin u] act on [u] only: every other user is
    an admin afterwards exactly if he was one before, nobody but [u] joins the
    roster, nobody leaves it on an addition, and the channel allowlist and
    the two feature flags are kept. *)
Theorem roster_updates_touch_one_user :
  forall (self : AdminManager.t) (u x : string),
    (In x (AdminManager.admin_user_ids (AdminManager.add_admin self u))
     <-> In x (AdminManager.admin_user_ids self) \/ x = u)
    /\ (In x (AdminManager.admin_user_ids (AdminManager.remove_admin self u)) ->
        In x (AdminManager.admin_user_ids self))
    /\ (x <> u ->
        In x (AdminManager.admin_user_ids self) ->
        In x (AdminManager.admin_user_ids (AdminManager.remove_admin self u)))
    /\ AdminManager.admin_channel_ids (AdminManager.add_admin self u)
       = AdminManager.admin_channel_ids self
    /\ AdminManager.admin_channel_ids (AdminManager.remove_admin self u)
       = AdminManager.admin_channel_ids self
    /\ AdminManager.spl_query_enabled (AdminManager.add_admin self u)
       = AdminManager.spl_query_enabled self
    /\ AdminManager.spl_query_enabled (AdminManager.remove_admin self u)
       = AdminManager.spl_query_enabled self
    /\ AdminManager.approval_required (AdminManager.add_admin self u)
       = AdminManager.approval_required self
    /\ AdminManager.approval_required (AdminManager.remove_admin self u)
       = AdminManager.approval_required self.
Proof.
  intros self u x.
  unfold AdminManager.add_admin, AdminManager.remove_admin.
  destruct (AdminManager.mem u (AdminManager.admin_user_ids self)) eqn:E;
    simpl; repeat split; try tauto.
  - intros [H| ->]; [assumption | now apply mem_In].
  - apply list_remove_In.
  - apply list_remove_other.
  - rewrite in_app_iff. simpl. intuition congruence.
  - rewrite in_app_iff. simpl. intuition congruence.
Qed.

(** ** Roster configuration *)

Lemma split_word (sep : ascii) (p : string) :
  Py.mem_char sep p = false -> Py.split sep p = [p].
Proof.
  induction p as [|c r IH]; simpl; [reflexivity|].
  intros H. apply orb_false_iff in H as [Hc Hr].
  rewrite Ascii.eqb_sym in Hc. rewrite Hc, (IH Hr). reflexivity.
Qed.

Lemma split_word_sep (sep : ascii) (p rest : string) :
  Py.mem_char sep p = false ->
  Py.split sep (p ++ String sep rest) = p :: Py.split sep rest.
Proof.
  induction p as [|c r IH]; simpl.
  - intros _. now rewrite Ascii.eqb_refl.
  - intros H. apply orb_false_iff in H as [Hc Hr].
    rewrite Ascii.eqb_sym in Hc. rewrite Hc, (IH Hr). reflexivity.
Qed.

Lemma split_join (sep : ascii) (x : string) (xs : list string) :
  Forall (fun p => Py.mem_char sep p = false) (x :: xs) ->
  Py.split sep (Py.join (String sep EmptyString) (x :: xs)) = x :: xs.
Proof.
  revert x. induction xs as [|y r IH]; intros x H.
  - simpl. apply split_word. now inversion H.
  - change (Py.join (String sep EmptyString) (x :: y :: r))
      with (x ++ String sep (Py.join (String sep EmptyString) (y :: r))).
    inversion H as [|? ? Hx Hrest]; subst.
    rewrite split_word_sep by assumption. f_equal. now apply IH.
Qed.

(** The roster written to the configuration as [",".join(ids)] is read back
    unchanged by [__init__], provided each id is non-empty, holds no comma
    and is left alone by the cleaning of blanks and quotes. *)
Theorem parse_ids_reads_back_joined_roster :
  forall ids : list string,
    Forall (fun x => AdminManager.clean x = x
                     /\ AdminManager.nonempty x = true
                     /\ Py.mem_char "," x = false) ids ->
    AdminManager.parse_ids (Py.join "," ids) = ids.
Proof.
  intros [|x xs] H; [reflexivity|].
  unfold AdminManager.parse_ids. rewrite split_join.
  - induction H as [|y r [Hc [Hn _]] _ IH]; [reflexivity|].
    simpl. rewrite Hc, Hn. simpl. now rewrite Hc, IH.
  - eapply Forall_impl; [|exact H]. simpl. tauto.
Qed.

Lemma parse_ids_reads_back_joined_roster_witness :
  AdminManager.parse_ids (Py.join "," ["U1ABC"; "U2DEF"]) = ["U1ABC"; "U2DEF"].
Proof.
  apply (parse_ids_reads_back_joined_roster ["U1ABC"; "U2DEF"]).
  repeat constructor.
Defined.

Lemma parse_ids_nonempty (raw : string) :
  Forall (fun x => AdminManager.nonempty x = true) (AdminManager.parse_ids raw).
Proof.
  unfold AdminManager.parse_ids. apply Forall_forall. intros x Hx.
  apply in_map_iff in Hx as [y [<- Hy]]. apply filter_In in Hy. tauto.
Qed.

(** Whatever the environment holds, the roster and the allowlist built by
    [__init__] contain no empty id, so a caller whose id is empty (a message
    without a [user] field) is not an admin of a freshly loaded manager. *)
Theorem init_roster_has_no_empty_id :
  forall env : string -> option string,
    Forall (fun x => AdminManager.nonempty x = true)
           (AdminManager.admin_user_ids (AdminManager.init env))
    /\ Forall (fun x => AdminManager.nonempty x = true)
              (AdminManager.admin_channel_ids (AdminManager.init env))
    /\ AdminManager.is_admin (AdminManager.init env) "" = false
    /\ AdminManager.is_admin_channel (AdminManager.init env) (Some "") = false.
Proof.
  intros env. pose proof (parse_ids_nonempty
                            (AdminManager.getenv env "ADMIN_USER_IDS" "")) as Hu.
  pose proof (parse_ids_nonempty
                (AdminManager.getenv env "ADMIN_CHANNEL_IDS" "")) as Hc.
  assert (Hno : forall xs,
             Forall (fun x => AdminManager.nonempty x = true) xs ->
             AdminManager.mem "" xs = false).
  { intros xs Hxs. destruct (AdminManager.mem "" xs) eqn:E; [|reflexivity].
    apply mem_In in E. rewrite Forall_forall in Hxs.
    specialize (Hxs _ E). discriminate. }
  repeat split; try assumption.
  - unfold AdminManager.is_admin. simpl. now apply Hno.
  - simpl. now apply Hno.
Qed.

(** ** Audit trail: queries *)

Lemma get_recent_logs_positive_witness :
  (1 <= 1)%Z
  /\ StructuredLogger.get_recent_logs two_entries 1
     = skipn 1 (StructuredLogger.logs two_entries).
Proof.
  split; [discriminate|].
  exact (proj1 (get_recent_logs_positive two_entries 1 ltac:(discriminate))).
Defined.

(** For every limit, negative ones included, [get_recent_logs] returns a
    suffix of the trail: entries are neither invented nor reordered. *)
Theorem get_recent_logs_is_suffix :
  forall (self : StructuredLogger.t) (limit : Z),
    exists older : list json,
      StructuredLogger.logs self
      = (older ++ StructuredLogger.get_recent_logs self limit)%list.
Proof.
  intros self limit. unfold StructuredLogger.get_recent_logs, Py.slice_from.
  eexists. symmetry. apply firstn_skipn.
Qed.

Lemma replay_on_logs (h : list logged_call) :
  forall self : StructuredLogger.t,
    StructuredLogger.logs (replay_on self h)
    = (StructuredLogger.logs self ++ map call_entry h)%list.
Proof.
  induction h as [|[[now ok] a] r IH]; intros self; simpl.
  - now rewrite app_nil_r.
  - unfold replay_on in *. simpl. rewrite IH. simpl.
    now rewrite <- app_assoc.
Qed.

Lemma replay_logs (h : list logged_call) :
  StructuredLogger.logs (replay h) = map call_entry h.
Proof. unfold replay. now rewrite replay_on_logs. Qed.

Lemma filterM_entries (key value : string) (sel : logged_call -> string)
      (h : list logged_call) :
  (forall c, Json.getitem (call_entry c) key = Ok (JStr (sel c))) ->
  Py.filterM (StructuredLogger.field_is key value) (map call_entry h)
  = Ok (map call_entry (filter (fun c => String.eqb (sel c) value) h)).
Proof.
  intros Hsel. induction h as [|c r IH]; [reflexivity|].
  cbn [map Py.filterM filter]. unfold StructuredLogger.field_is at 1.
  rewrite Hsel. cbn [Py.bind]. rewrite IH. cbn [Py.bind].
  now destruct (String.eqb (sel c) value).
Qed.

(** On a trail written by [log_action] alone, [get_user_logs] and
    [get_logs_by_command] do not raise: they return, in the order of the
    calls, exactly the entries logged for that user, or for that command. *)
Theorem queries_select_logged_entries :
  forall (h : list logged_call) (user_id command : string),
    StructuredLogger.get_user_logs (replay h) user_id
    = Ok (map call_entry
              (filter (fun c => String.eqb (call_user c) user_id) h))
    /\ StructuredLogger.get_logs_by_command (replay h) command
       = Ok (map call_entry
                 (filter (fun c => String.eqb (call_command c) command) h)).
Proof.
  intros h user_id command.
  unfold StructuredLogger.get_user_logs, StructuredLogger.get_logs_by_command.
  rewrite replay_logs. split; apply filterM_entries; intros [[now ok] a];
    reflexivity.
Qed.

(** ** Audit trail: exports *)

Lemma dict_get_set_other (k k' : string) (v : json) (d : dict) :
  k <> k' -> dict_get k (dict_set k' v d) = dict_get k d.
Proof.
  intros Hne. induction d as [|[k0 v0] r IH]; simpl.
  - destruct (String.eqb_spec k k'); [congruence | reflexivity].
  - destruct (String.eqb_spec k' k0) as [->|Hk0]; simpl.
    + destruct (String.eqb_spec k k0); [congruence | reflexivity].
    + destruct (String.eqb k k0); [reflexivity | exact IH].
Qed.

Lemma dict_get_set_same (k : string) (v : json) (d : dict) :
  dict_get k (dict_set k v d) = Some v.
Proof.
  induction d as [|[k0 v0] r IH]; simpl.
  - now rewrite String.eqb_refl.
  - destruct (String.eqb_spec k k0) as [->|Hk0]; simpl.
    + now rewrite String.eqb_refl.
    + destruct (String.eqb_spec k k0); [congruence | exact IH].
Qed.

Lemma export_csv_row_other_fields (e : json) (k : string) :
  k <> "changes" ->
  Json.getitem (fst (StructuredLogger.export_csv_row e)) k = Json.getitem e k.
Proof.
  intros Hk. destruct e; try reflexivity. simpl.
  now rewrite dict_get_set_other.
Qed.

Lemma export_csv_rows_other_fields (ls : list json) :
  forall (i : nat) (e : json),
    nth_error ls i = Some e ->
    exists e',
      nth_error (fst (StructuredLogger.export_csv_rows ls)) i = Some e'
      /\ forall k, k <> "changes" -> Json.getitem e' k = Json.getitem e k.
Proof.
  induction ls as [|log rest IH]; intros [|i] e H; simpl in H; try discriminate.
  - injection H as ->. simpl.
    pose proof (export_csv_row_other_fields e) as Hrow.
    destruct (StructuredLogger.export_csv_row e) as [e' [u|x]]; simpl in *.
    + destruct (StructuredLogger.export_csv_rows rest) as [rest' r]. simpl.
      exists e'. auto.
    + exists e'. auto.
  - simpl.
    destruct (StructuredLogger.export_csv_row log) as [log' [u|x]]; simpl.
    + destruct (IH i e H) as [e' [Hn Hf]].
      destruct (StructuredLogger.export_csv_rows rest) as [rest' r]. simpl in *.
      exists e'. auto.
    + exists e. auto.
Qed.

(** A CSV export, whether it succeeds or not, keeps the number and the
    positions of the entries in memory, keeps the log file, and keeps every
    field of every entry other than [changes]. *)
Theorem export_csv_keeps_other_fields :
  forall (open_ok : bool) (out : string) (self : StructuredLogger.t),
    let after := fst (StructuredLogger.export_csv open_ok out self) in
    List.length (StructuredLogger.logs after)
    = List.length (StructuredLogger.logs self)
    /\ StructuredLogger.store after = StructuredLogger.store self
    /\ (forall (i : nat) (e : json),
           nth_error (StructuredLogger.logs self) i = Some e ->
           exists e',
             nth_error (StructuredLogger.logs after) i = Some e'
             /\ forall k, k <> "changes" ->
                          Json.getitem e' k = Json.getitem e k).
Proof.
  intros open_ok out self. unfold StructuredLogger.export_csv.
  destruct (StructuredLogger.logs self) as [|l0 ls] eqn:El.
  - simpl. rewrite El. repeat split. intros [|i] e H; discriminate.
  - destruct open_ok.
    + pose proof (export_csv_rows_length (l0 :: ls)) as Hlen.
      pose proof (export_csv_rows_other_fields (l0 :: ls)) as Hf.
      destruct (StructuredLogger.export_csv_rows (l0 :: ls)) as [ls' r].
      simpl in *. repeat split; assumption.
    + simpl. rewrite El. repeat split. intros i e H. exists e. auto.
Qed.

Lemma export_csv_rows_written (h : list logged_call) :
  StructuredLogger.export_csv_rows (map call_entry h)
  = (map csv_rewritten (map call_entry h), Ok tt).
Proof.
  induction h as [|[[now ok] a] r IH]; [reflexivity|].
  cbn [map StructuredLogger.export_csv_rows].
  rewrite IH.
  change (csv_rewritten (call_entry (now, ok, a)))
    with (fst (StructuredLogger.export_csv_row (call_entry (now, ok, a)))).
  destruct (StructuredLogger.export_csv_row (call_entry (now, ok, a)))
    as [e' res] eqn:Erow.
  assert (Hres : res = Ok tt).
  { unfold call_entry, StructuredLogger.log_entry,
      StructuredLogger.export_csv_row in Erow.
    injection Erow as _ Hres. rewrite <- Hres. reflexivity. }
  subst res. cbn [fst]. reflexivity.
Qed.

(** On a non-empty trail written by [log_action] alone, a CSV export whose
    file can be written succeeds, and leaves each entry in memory with its
    [changes] mapping replaced by the JSON text of that mapping. *)
Theorem export_csv_on_logged_trail :
  forall (c : logged_call) (h : list logged_call) (out : string),
    StructuredLogger.export_csv true out (replay (c :: h))
    = ({| StructuredLogger.logs := map csv_rewritten (map call_entry (c :: h));
          StructuredLogger.store := StructuredLogger.store (replay (c :: h)) |},
       Some out)
    /\ Json.getitem (csv_rewritten (call_entry c)) "changes"
       = Ok (JStr (Json.dumps
                     (JObj (match StructuredLogger.changes (snd c) with
                            | Some d => d
                            | None => []
                            end)))).
Proof.
  intros c h out. split.
  - unfold StructuredLogger.export_csv. rewrite replay_logs.
    rewrite export_csv_rows_written. reflexivity.
  - destruct c as [[now ok] a]. simpl.
    destruct (StructuredLogger.changes a) as [[|x d]|]; reflexivity.
Qed.

Lemma split_nonempty (sep : ascii) (s : string) :
  exists w ws, Py.split sep s = w :: ws.
Proof.
  destruct s as [|c r]; simpl; [eauto|].
  destruct (Ascii.eqb c sep); [eauto|].
  destruct (Py.split sep r); eauto.
Qed.

Lemma split_two (sep : ascii) (s : string) :
  Py.mem_char sep s = true ->
  exists a b rest, Py.split sep s = a :: b :: rest.
Proof.
  induction s as [|c r IH]; simpl; [discriminate|].
  rewrite Ascii.eqb_sym. destruct (Ascii.eqb c sep); simpl.
  - intros _. destruct (split_nonempty sep r) as [w [ws ->]]. eauto.
  - intros H. destruct (IH H) as [a [b [rest ->]]]. eauto.
Qed.

Lemma write_all_ok (ws : list (result string)) :
  Forall (fun w => Py.raises w = false) ws ->
  snd (StructuredLogger.write_all ws) = Ok tt.
Proof.
  induction 1 as [|w r Hw _ IH]; [reflexivity|].
  simpl. destruct w as [text|e]; [|discriminate].
  destruct (StructuredLogger.write_all r). simpl in *. exact IH.
Qed.

Lemma export_txt_entry_logged (c : logged_call) :
  Py.mem_char "T" (call_now c) = true ->
  snd (StructuredLogger.export_txt_entry (call_entry c)) = Ok tt.
Proof.
  destruct c as [[now ok] a]. simpl call_now. intros HT.
  destruct (split_two "T" now HT) as [date [clock [rest Hsplit]]].
  destruct (split_nonempty "." clock) as [hms [frac Hclock]].
  unfold StructuredLogger.export_txt_entry, StructuredLogger.timestamp_part.
  unfold call_entry, StructuredLogger.log_entry.
  cbn [Json.getitem dict_get String.eqb Ascii.eqb Bool.eqb Py.bind
       StructuredLogger.split_method].
  rewrite Hsplit.
  cbn [StructuredLogger.index nth_error Py.bind]. rewrite Hclock.
  cbn [StructuredLogger.index nth_error Py.bind].
  apply write_all_ok. repeat constructor.
Qed.

Lemma export_txt_entries_logged (h : list logged_call) :
  Forall (fun c => Py.mem_char "T" (call_now c) = true) h ->
  snd (StructuredLogger.export_txt_entries (map call_entry h)) = Ok tt.
Proof.
  induction 1 as [|c r Hc _ IH]; [reflexivity|].
  cbn [map StructuredLogger.export_txt_entries].
  pose proof (export_txt_entry_logged c Hc) as He.
  destruct (StructuredLogger.export_txt_entry (call_entry c)) as [text res].
  simpl in He. subst res.
  destruct (StructuredLogger.export_txt_entries (map call_entry r)).
  simpl in *. exact IH.
Qed.

(** On a trail written by [log_action] alone, with clock readings in ISO
    format (a [T] between date and time), a text export whose file can be
    written renders every entry and returns the path. *)
Theorem export_txt_on_logged_trail :
  forall (h : list logged_call) (now out : string),
    Forall (fun c => Py.mem_char "T" (call_now c) = true) h ->
    snd (StructuredLogger.export_txt true now out (replay h)) = Some out.
Proof.
  intros h now out Hh. unfold StructuredLogger.export_txt.
  rewrite replay_logs. pose proof (export_txt_entries_logged h Hh) as He.
  destruct (StructuredLogger.export_txt_entries (map call_entry h))
    as [text res].
  simpl in He. subst res. reflexivity.
Qed.

Lemma export_txt_on_logged_trail_witness :
  snd (StructuredLogger.export_txt true "2024-05-01T10:05:00" "logs_export.txt"
         (replay [("2024-05-01T10:00:00.000100", true, admin_added);
                  ("2024-05-01T10:00:01.000200", false, export_denied)]))
  = Some "logs_export.txt".
Proof.
  apply (export_txt_on_logged_trail
           [("2024-05-01T10:00:00.000100", true, admin_added);
            ("2024-05-01T10:00:01.000200", false, export_denied)]).
  repeat constructor.
Defined.

(** ** Waiting for a job *)

Lemma wait_loop_more_fuel (b : SplunkClient.backend) (sid : string)
      (max_wait poll_interval : Z) (fuel : nat) :
  forall (extra : nat) (elapsed : Z) (k : nat) (run : SplunkClient.wait_run),
    SplunkClient.wait_loop fuel b sid max_wait poll_interval elapsed k
    = Some run ->
    SplunkClient.wait_loop (fuel + extra) b sid max_wait poll_interval elapsed k
    = Some run.
Proof.
  induction fuel as [|fuel IH]; intros extra elapsed k run H; [discriminate|].
  simpl in *. destruct (elapsed <? max_wait)%Z; [|exact H].
  destruct (SplunkClient.get_job b sid k) as [cost r].
  destruct (SplunkClient.poll_done r) as [[|]|e]; try exact H.
  destruct (poll_interval <? 0)%Z; [exact H | now apply IH].
Qed.

Lemma wait_loop_bounded (b : SplunkClient.backend) (sid : string)
      (max_wait poll_interval : Z) (fuel : nat) :
  (0 < poll_interval)%Z ->
  forall (elapsed : Z) (k : nat),
    (max_wait - elapsed <= Z.of_nat fuel * poll_interval)%Z ->
    exists run,
      SplunkClient.wait_loop (S fuel) b sid max_wait poll_interval elapsed k
      = Some run
      /\ (k <= SplunkClient.polls run <= k + fuel)%nat
      /\ (SplunkClient.sleeps run <= SplunkClient.polls run
          <= S (SplunkClient.sleeps run))%nat.
Proof.
  intros Hpos. induction fuel as [|fuel IH]; intros elapsed k Hb.
  - simpl. destruct (Z.ltb_spec elapsed max_wait) as [Hlt|_]; [lia|].
    eexists. split; [reflexivity|]. simpl. lia.
  - remember (S fuel) as f eqn:Ef. simpl.
    destruct (Z.ltb_spec elapsed max_wait) as [Hlt|_];
      [|eexists; split; [reflexivity | simpl; lia]].
    destruct (SplunkClient.get_job b sid k) as [cost r].
    destruct (SplunkClient.poll_done r) as [[|]|e];
      try (eexists; split; [reflexivity | simpl; lia]).
    destruct (Z.ltb_spec poll_interval 0) as [Hneg|_]; [lia|].
    subst f.
    destruct (IH (elapsed + Z.of_nat cost + poll_interval)%Z (S k))
      as [run [Hrun [Hp Hs]]]; [rewrite Nat2Z.inj_succ in Hb; lia|].
    exists run. split; [exact Hrun|]. lia.
Qed.

(** With a positive poll interval [wait_for_job] ends against every backend,
    whatever it answers: after at most [max_wait / poll_interval + 1] status
    requests, with as many sleeps as requests or one fewer; and with no
    request at all when the budget is not positive. *)
Theorem wait_for_job_is_bounded :
  forall (b : SplunkClient.backend) (sid : string) (max_wait poll_interval : Z)
         (fuel : nat),
    (0 < poll_interval)%Z ->
    (SplunkClient.enough_fuel max_wait poll_interval <= fuel)%nat ->
    exists run : SplunkClient.wait_run,
      SplunkClient.wait_for_job fuel b sid max_wait poll_interval = Some run
      /\ (SplunkClient.polls run
          <= S (Z.to_nat (max_wait / poll_interval)))%nat
      /\ (SplunkClient.sleeps run <= SplunkClient.polls run
          <= S (SplunkClient.sleeps run))%nat
      /\ ((max_wait <= 0)%Z ->
          run = {| SplunkClient.outcome := Ok false;
                   SplunkClient.polls := 0;
                   SplunkClient.sleeps := 0 |}).
Proof.
  intros b sid max_wait poll_interval fuel Hpos Hfuel.
  unfold SplunkClient.enough_fuel in Hfuel.
  set (q := Z.to_nat (max_wait / poll_interval)) in *.
  destruct (wait_loop_bounded b sid max_wait poll_interval (S q) Hpos 0%Z 0%nat)
    as [run [Hrun [Hp Hs]]].
  { pose proof (Z.mod_pos_bound max_wait poll_interval Hpos) as Hmod.
    pose proof (Z.div_mod max_wait poll_interval ltac:(lia)) as Hdm.
    assert (Hge : (max_wait / poll_interval <= Z.of_nat q)%Z)
      by (subst q; lia).
    rewrite Nat2Z.inj_succ. nia. }
  exists run. unfold SplunkClient.wait_for_job.
  replace fuel with (S (S q) + (fuel - S (S q)))%nat by lia.
  rewrite (wait_loop_more_fuel _ _ _ _ _ _ _ _ _ Hrun).
  split; [reflexivity|]. split; [lia|]. split; [lia|].
  intros Hle. simpl in Hrun.
  destruct (Z.ltb_spec 0 max_wait) as [Hlt|_]; [lia|].
  now injection Hrun as <-.
Qed.

Lemma wait_for_job_is_bounded_witness :
  exists run : SplunkClient.wait_run,
    SplunkClient.wait_for_job 25 failing_status "abc123" 35000 1500 = Some run
    /\ (SplunkClient.polls run <= 24)%nat.
Proof.
  destruct (wait_for_job_is_bounded failing_status "abc123" 35000 1500 25)
    as [run [Hrun [Hp _]]].
  - reflexivity.
  - apply Nat.leb_le. reflexivity.
  - exists run. split; [exact Hrun | exact Hp].
Defined.

(** ** Raw-query command: effects of one invocation *)

(** The wait of a command ends within the rounds its budget allows. *)
Lemma wait_rounds_bound (b : SplunkClient.backend) (sid : string)
      (max_wait poll_interval : Z) :
  (0 < poll_interval)%Z ->
  exists run : SplunkClient.wait_run,
    SplunkClient.wait_for_job (SplunkClient.enough_fuel max_wait poll_interval)
                              b sid max_wait poll_interval = Some run
    /\ (SplunkClient.polls run
        <= S (Z.to_nat (max_wait / poll_interval)))%nat.
Proof.
  intros Hpos. unfold SplunkClient.enough_fuel, SplunkClient.wait_for_job.
  set (q := Z.to_nat (max_wait / poll_interval)).
  destruct (wait_loop_bounded b sid max_wait poll_interval (S q) Hpos 0%Z 0%nat)
    as [run [Hrun [Hp Hs]]].
  { pose proof (Z.mod_pos_bound max_wait poll_interval Hpos) as Hmod.
    pose proof (Z.div_mod max_wait poll_interval ltac:(lia)) as Hdm.
    assert (Hge : (max_wait / poll_interval <= Z.of_nat q)%Z)
      by (subst q; lia).
    rewrite Nat2Z.inj_succ. nia. }
  exists run. split; [exact Hrun | lia].
Qed.

Lemma repeat_length_le {A} (x : A) (n m : nat) :
  (n <= m)%nat -> (List.length (repeat x n) <= m)%nat.
Proof. intros H. now rewrite repeat_length. Qed.

(** Every invocation of the raw-query command ends, whatever the backend
    answers.  It leaves the admin manager and the audit trail as they were,
    says one or two texts, writes at most two lines to the operational log
    and sends at most 26 requests; requests are sent only for a caller that
    [can_execute_spl] allows, and the first of them is the creation of a job
    for the text of the command. *)
Theorem raw_query_command_effects :
  forall (splunk : SplunkClient.backend) (limit : Z) (exc_text : exn -> string)
         (clock : nat -> string) (m : App.message) (w : App.world),
    let user_id := App.get_or_empty (App.user m) in
    let channel_id := App.get_or_empty (App.channel m) in
    let query := Py.strip (Py.replace "!splunk-query" ""
                                      (App.get_or_empty (App.text m))) in
    exists (w' : App.world) (texts lines : list string)
           (rs : list App.request),
      App.handle_splunk_query splunk limit exc_text clock m w = Some w'
      /\ App.admin_manager w' = App.admin_manager w
      /\ App.audit_log w' = App.audit_log w
      /\ App.said w' = (App.said w ++ texts)%list
      /\ (1 <= List.length texts <= 2)%nat
      /\ App.logged w' = (App.logged w ++ lines)%list
      /\ (List.length lines <= 2)%nat
      /\ App.requests w' = (App.requests w ++ rs)%list
      /\ (List.length rs <= 26)%nat
      /\ (rs = []
          \/ (fst (AdminManager.can_execute_spl (App.admin_manager w) user_id
                                                (Some channel_id)) = true
              /\ exists rest,
                  rs = App.PostJob
                         {| SplunkClient.search := query;
                            SplunkClient.earliest_time := "-24h";
                            SplunkClient.latest_time := "now";
                            SplunkClient.exec_mode := "normal" |} :: rest)).
Proof.
  intros splunk limit exc_text clock m w user_id channel_id query.
  unfold App.handle_splunk_query. fold user_id channel_id query.
  destruct (AdminManager.can_execute_spl (App.admin_manager w) user_id
                                         (Some channel_id))
    as [allowed reason] eqn:Ecan.
  assert (Hrun : exists run,
             forall sid,
               SplunkClient.run_spl_query splunk query "-24h" "now" = Ok sid ->
               SplunkClient.wait_for_job (SplunkClient.enough_fuel 35000 1500)
                 splunk (Json.str sid) 35000 1500 = Some run
               /\ (SplunkClient.polls run <= 24)%nat).
  { destruct (SplunkClient.run_spl_query splunk query "-24h" "now") as [sid|e].
    - destruct (wait_rounds_bound splunk (Json.str sid) 35000 1500 eq_refl)
        as [run [Hrun Hpolls]].
      exists run. intros sid' Heq. injection Heq as <-. split; assumption.
    - exists (SplunkClient.mk_wait_run (Ok false) 0 0). discriminate. }
  destruct Hrun as [run Hrun].
  destruct allowed; cbn [negb fst];
    [destruct (AdminManager.nonempty query); cbn [negb];
     [unfold App.run_query;
      destruct (SplunkClient.run_spl_query splunk query "-24h" "now")
        as [sid|e];
      [destruct (Hrun sid eq_refl) as [-> Hp];
       destruct (SplunkClient.outcome run) as [[|]|e];
       [destruct (SplunkClient.get_results splunk (Json.str sid) limit)
          as [results|e] | | ] | ] | ] | ];
    (eexists _, _, _, _;
     split; [reflexivity|];
     unfold App.on_error, App.say, App.sent, App.security_event;
     cbn [App.said App.logged App.requests App.admin_manager App.audit_log];
     repeat split;
     first [ reflexivity
           | symmetry; apply app_nil_r
           | rewrite <- !app_assoc; reflexivity
           | cbn [app List.length];
             rewrite ?length_app, ?repeat_length; cbn [List.length]; lia
           | right; split; [reflexivity | eexists; reflexivity]
           | left; reflexivity ]).
Qed.

(** ** Command arguments *)

Lemma split_ws_words (s : string) :
  Forall (fun w => is_word w = true) (Py.split_ws s).
Proof.
  induction s as [|c r IH]; [constructor|].
  simpl. destruct (Py.isspace c) eqn:Ec; [exact IH|].
  destruct r as [|d r'].
  - repeat constructor. unfold is_word. simpl. now rewrite Ec.
  - destruct (Py.isspace d) eqn:Ed.
    + constructor; [|exact IH]. unfold is_word. simpl. now rewrite Ec.
    + destruct (Py.split_ws (String d r')) as [|w ws].
      * repeat constructor. unfold is_word. simpl. now rewrite Ec.
      * inversion IH as [|? ? Hw Hws]; subst. constructor; [|exact Hws].
        unfold is_word in *. simpl. rewrite Ec. simpl.
        apply andb_true_iff in Hw. tauto.
Qed.

Lemma split_ws_starts (c : ascii) (r : string) :
  Py.isspace c = false -> Py.split_ws (String c r) <> [].
Proof.
  intros Hc. simpl. rewrite Hc. destruct r as [|d r']; [discriminate|].
  destruct (Py.isspace d); [discriminate|].
  destruct (Py.split_ws (String d r')); discriminate.
Qed.

Lemma lstrip_by_head (p : ascii -> bool) (s : string) (c : ascii) (r : string) :
  Py.lstrip_by p s = String c r -> p c = false.
Proof.
  induction s as [|d t IH]; simpl; [discriminate|].
  destruct (p d) eqn:Ed; [exact IH|]. intros H. injection H as <- _. exact Ed.
Qed.

Lemma rstrip_by_head (p : ascii -> bool) (c : ascii) (r : string) :
  p c = false -> exists r', Py.rstrip_by p (String c r) = String c r'.
Proof.
  intros Hc. simpl. destruct (Py.rstrip_by p r); [rewrite Hc|]; eauto.
Qed.

Lemma strip_head (s : string) :
  Py.strip s = "" \/ exists c r, Py.strip s = String c r /\ Py.isspace c = false.
Proof.
  unfold Py.strip. destruct (Py.lstrip_by Py.isspace s) as [|c r] eqn:El.
  - now left.
  - right. pose proof (lstrip_by_head _ _ _ _ El) as Hc.
    destruct (rstrip_by_head Py.isspace c r Hc) as [r' ->]. eauto.
Qed.

(** [parse_args] never raises.  It returns no search name, and no parameter,
    exactly for a text that is absent or blank; otherwise the search name is
    a non-empty text without blanks. *)
Theorem parse_args_never_raises :
  forall text : option string,
    exists (name : option string) (params : dict),
      SlackHandlers.parse_args text = Ok (name, params)
      /\ (name = None <-> Py.strip (text_or_empty text) = "")
      /\ (name = None -> params = [])
      /\ (forall n, name = Some n -> is_word n = true).
Proof.
  intros text. unfold SlackHandlers.parse_args. fold (text_or_empty text).
  destruct (strip_head (text_or_empty text)) as [->|[c [r [-> Hc]]]].
  - simpl. exists None, []. repeat split; congruence.
  - cbn [String.eqb].
    pose proof (split_ws_starts c r Hc) as Hne.
    pose proof (split_ws_words (String c r)) as Hw.
    destruct (Py.split_ws (String c r)) as [|n tokens]; [congruence|].
    eexists _, _. split; [reflexivity|].
    inversion Hw; subst.
    repeat split; try congruence; try discriminate.
Qed.

Lemma split_ws_word (w : string) :
  forall c, Py.isspace c = false -> no_blank w = true ->
            Py.split_ws (String c w) = [String c w].
Proof.
  induction w as [|d w' IH]; intros c Hc Hw.
  - simpl. now rewrite Hc.
  - simpl in Hw. apply andb_true_iff in Hw as [Hd Hw'].
    apply negb_true_iff in Hd.
    change (Py.split_ws (String c (String d w')))
      with (if Py.isspace c then Py.split_ws (String d w')
            else if Py.isspace d
                 then String c EmptyString :: Py.split_ws (String d w')
                 else match Py.split_ws (String d w') with
                      | w :: ws => String c w :: ws
                      | [] => [String c EmptyString]
                      end).
    rewrite Hc, Hd, (IH d Hd Hw'). reflexivity.
Qed.

Lemma split_ws_word_blank (w rest : string) :
  forall c, Py.isspace c = false -> no_blank w = true ->
            Py.split_ws (String c (w ++ String " " rest))
            = String c w :: Py.split_ws rest.
Proof.
  induction w as [|d w' IH]; intros c Hc Hw.
  - simpl. now rewrite Hc.
  - simpl in Hw. apply andb_true_iff in Hw as [Hd Hw'].
    apply negb_true_iff in Hd.
    change (Py.split_ws (String c (String d w' ++ String " " rest)))
      with (if Py.isspace c
            then Py.split_ws (String d (w' ++ String " " rest))
            else if Py.isspace d
                 then String c EmptyString
                      :: Py.split_ws (String d (w' ++ String " " rest))
                 else match Py.split_ws (String d (w' ++ String " " rest)) with
                      | w :: ws => String c w :: ws
                      | [] => [String c EmptyString]
                      end).
    rewrite Hc, Hd, (IH d Hd Hw'). reflexivity.
Qed.

Lemma is_word_inv (w : string) :
  is_word w = true ->
  exists c r, w = String c r /\ Py.isspace c = false /\ no_blank r = true.
Proof.
  unfold is_word. destruct w as [|c r]; simpl; [discriminate|].
  intros H. apply andb_true_iff in H as [Hc Hr]. apply negb_true_iff in Hc.
  eauto.
Qed.

Lemma split_ws_join (w : string) (ws : list string) :
  Forall (fun x => is_word x = true) (w :: ws) ->
  Py.split_ws (Py.join " " (w :: ws)) = w :: ws.
Proof.
  revert w. induction ws as [|v r IH]; intros w H.
  - inversion H as [|? ? Hw _]; subst.
    destruct (is_word_inv w Hw) as [c [t [-> [Hc Ht]]]].
    simpl Py.join. now apply split_ws_word.
  - inversion H as [|? ? Hw Hrest]; subst.
    destruct (is_word_inv w Hw) as [c [t [-> [Hc Ht]]]].
    change (Py.join " " (String c t :: v :: r))
      with (String c (t ++ String " " (Py.join " " (v :: r)))).
    rewrite split_ws_word_blank by assumption. f_equal. now apply IH.
Qed.

Lemma rstrip_ends_nonblank (s : string) :
  ends_nonblank s = true -> Py.rstrip_by Py.isspace s = s.
Proof.
  induction s as [|c r IH]; [discriminate|].
  destruct r as [|d r'].
  - simpl. intros H. apply negb_true_iff in H. now rewrite H.
  - intros H. change (ends_nonblank (String c (String d r')))
      with (ends_nonblank (String d r')) in H.
    specialize (IH H).
    change (Py.rstrip_by Py.isspace (String c (String d r')))
      with (match Py.rstrip_by Py.isspace (String d r') with
            | EmptyString => if Py.isspace c then EmptyString
                             else String c EmptyString
            | t => String c t
            end).
    now rewrite IH.
Qed.

Lemma ends_nonblank_app (a b : string) :
  ends_nonblank b = true -> ends_nonblank (a ++ b) = true.
Proof.
  intros Hb. induction a as [|c r IH]; [exact Hb|].
  simpl. destruct (r ++ b) eqn:E; [|exact IH].
  destruct r; simpl in E; [subst b|]; discriminate.
Qed.

Lemma no_blank_ends (c : ascii) (r : string) :
  Py.isspace c = false -> no_blank r = true ->
  ends_nonblank (String c r) = true.
Proof.
  revert c. induction r as [|d r' IH]; intros c Hc Hr.
  - simpl. now rewrite Hc.
  - simpl in Hr. apply andb_true_iff in Hr as [Hd Hr'].
    apply negb_true_iff in Hd.
    change (ends_nonblank (String c (String d r')))
      with (ends_nonblank (String d r')). now apply IH.
Qed.

Lemma join_ends_nonblank (w : string) (ws : list string) :
  Forall (fun x => is_word x = true) (w :: ws) ->
  ends_nonblank (Py.join " " (w :: ws)) = true.
Proof.
  revert w. induction ws as [|v r IH]; intros w H;
    inversion H as [|? ? Hw Hrest]; subst.
  - destruct (is_word_inv w Hw) as [c [t [-> [Hc Ht]]]].
    simpl Py.join. now apply no_blank_ends.
  - change (Py.join " " (w :: v :: r))
      with (w ++ " " ++ Py.join " " (v :: r)).
    apply ends_nonblank_app, (ends_nonblank_app " "). now apply IH.
Qed.

Lemma strip_no_blank (s : string) : no_blank s = true -> Py.strip s = s.
Proof.
  intros H. destruct s as [|c r]; [reflexivity|].
  simpl in H. apply andb_true_iff in H as [Hc Hr]. apply negb_true_iff in Hc.
  unfold Py.strip. simpl Py.lstrip_by. rewrite Hc.
  apply rstrip_ends_nonblank. now apply no_blank_ends.
Qed.

Lemma split_once_token (k v : string) :
  Py.mem_char "=" k = false -> Py.split_once "=" (k ++ "=" ++ v) = (k, v).
Proof.
  induction k as [|c r IH]; [reflexivity|].
  cbn [Py.mem_char]. intros H. apply orb_false_iff in H as [Hc Hr].
  rewrite Ascii.eqb_sym in Hc.
  change (Py.split_once "=" (String c r ++ "=" ++ v))
    with (if Ascii.eqb c "=" then (EmptyString, r ++ "=" ++ v)
          else let (before, after) := Py.split_once "=" (r ++ "=" ++ v) in
               (String c before, after)).
  now rewrite Hc, (IH Hr).
Qed.

Lemma mem_char_app (c : ascii) (a b : string) :
  Py.mem_char c (a ++ b) = Py.mem_char c a || Py.mem_char c b.
Proof.
  induction a as [|d r IH]; [reflexivity|].
  cbn [Py.mem_char append]. rewrite IH. now rewrite orb_assoc.
Qed.

Lemma no_blank_app (a b : string) :
  no_blank (a ++ b) = no_blank a && no_blank b.
Proof.
  induction a as [|d r IH]; [reflexivity|].
  simpl. rewrite IH. now rewrite andb_assoc.
Qed.

Lemma add_param_token (params : dict) (kv : string * string) :
  plain_param kv = true ->
  SlackHandlers.add_param params (param_token kv)
  = dict_set (fst kv) (JStr (snd kv)) params.
Proof.
  destruct kv as [k v]. unfold plain_param, param_token. simpl fst. simpl snd.
  intros H. apply andb_true_iff in H as [H Heq].
  apply andb_true_iff in H as [Hk Hv]. apply negb_true_iff in Heq.
  unfold SlackHandlers.add_param.
  rewrite mem_char_app. simpl Py.mem_char at 2. rewrite orb_true_r.
  rewrite split_once_token by assumption.
  now rewrite !strip_no_blank.
Qed.

(** A command line made of a search name and [key=value] tokens separated
    by single blanks is read back by [parse_args]: the name, and the
    parameters in the order of the tokens, a repeated key keeping its place
    and taking the last value. *)
Theorem parse_args_reads_command_line :
  forall (name : string) (kvs : list (string * string)),
    is_word name = true ->
    Forall (fun kv => plain_param kv = true) kvs ->
    SlackHandlers.parse_args
      (Some (Py.join " " (name :: map param_token kvs)))
    = Ok (Some name,
          fold_left (fun d kv => dict_set (fst kv) (JStr (snd kv)) d) kvs []).
Proof.
  intros name kvs Hname Hkvs.
  assert (Hwords : Forall (fun x => is_word x = true)
                          (name :: map param_token kvs)).
  { constructor; [exact Hname|]. apply Forall_forall. intros t Ht.
    apply in_map_iff in Ht as [[k v] [<- Hin]].
    rewrite Forall_forall in Hkvs. specialize (Hkvs _ Hin).
    unfold plain_param in Hkvs. simpl in Hkvs.
    apply andb_true_iff in Hkvs as [H _]. apply andb_true_iff in H as [Hk Hv].
    unfold is_word, param_token. simpl fst. simpl snd.
    rewrite no_blank_app, Hk. simpl. rewrite Hv.
    destruct k; reflexivity. }
  unfold SlackHandlers.parse_args.
  assert (Hstrip : Py.strip (Py.join " " (name :: map param_token kvs))
                   = Py.join " " (name :: map param_token kvs)).
  { pose proof (join_ends_nonblank _ _ Hwords) as Hend.
    destruct (is_word_inv name Hname) as [c [t [-> [Hc Ht]]]].
    unfold Py.strip.
    assert (Hl : forall s, Py.lstrip_by Py.isspace (String c s) = String c s)
      by (intros s; simpl; now rewrite Hc).
    destruct (map param_token kvs) as [|v r].
    - simpl Py.join in *. rewrite Hl. now apply rstrip_ends_nonblank.
    - change (Py.join " " (String c t :: v :: r))
        with (String c (t ++ " " ++ Py.join " " (v :: r))) in *.
      rewrite Hl. now apply rstrip_ends_nonblank. }
  rewrite Hstrip. rewrite split_ws_join by assumption.
  destruct (is_word_inv name Hname) as [c [t [Hn _]]].
  destruct (String.eqb_spec (Py.join " " (name :: map param_token kvs)) "")
    as [He|_].
  { subst name. destruct (map param_token kvs); discriminate. }
  f_equal. f_equal. clear -Hkvs. generalize (@nil (string * json)).
  induction Hkvs as [|kv r Hkv _ IH]; intros acc; [reflexivity|].
  simpl. rewrite add_param_token by assumption. apply IH.
Qed.

Lemma parse_args_reads_command_line_witness :
  SlackHandlers.parse_args
    (Some (Py.join " " ("failed_logins"
                        :: map param_token [("earliest", "-2h");
                                            ("limit", "10")])))
  = Ok (Some "failed_logins",
        [("earliest", JStr "-2h"); ("limit", JStr "10")]).
Proof.
  apply (parse_args_reads_command_line
           "failed_logins" [("earliest", "-2h"); ("limit", "10")]).
  - reflexivity.
  - repeat constructor.
Defined.

(** ** JSON texts *)

Lemma string_app_assoc (a b c : string) : (a ++ b) ++ c = a ++ (b ++ c).
Proof. induction a as [|x a IH]; simpl; [reflexivity | now rewrite IH]. Qed.

Lemma string_app_nil_r (a : string) : a ++ "" = a.
Proof. induction a as [|x a IH]; simpl; [reflexivity | now rewrite IH]. Qed.

Lemma to_uint_shape (p : positive) :
  Pos.to_uint p <> Decimal.Nil
  /\ (forall d', Pos.to_uint p <> Decimal.D0 d')
  /\ Pos.of_uint (Pos.to_uint p) = Npos p.
Proof.
  split; [apply DecimalPos.Unsigned.to_uint_nonnil|].
  split; [|apply DecimalPos.Unsigned.of_to].
  intros d' Hd.
  pose proof (DecimalPos.Unsigned.to_of (Pos.to_uint p)) as Hto.
  rewrite DecimalPos.Unsigned.of_to in Hto. simpl in Hto.
  rewrite Hd, DecimalFacts.unorm_D0 in Hto. symmetry in Hto.
  destruct (Decimal.uint_eq_dec (Decimal.nzhead d') Decimal.Nil) as [En|En].
  - apply DecimalFacts.unorm_0 in En. rewrite En in Hto.
    apply (DecimalPos.Unsigned.to_uint_nonzero p). now rewrite Hd, <- Hto.
  - rewrite (DecimalFacts.unorm_nzhead d' En) in Hto.
    now apply DecimalFacts.nzhead_nonzero in Hto.
Qed.

Lemma str_of_pos (p : positive) :
  NilZero.string_of_uint (Pos.to_uint p)
  = NilEmpty.string_of_uint (Pos.to_uint p).
Proof.
  destruct (to_uint_shape p) as [Hnil _].
  unfold NilZero.string_of_uint. destruct (Pos.to_uint p); congruence.
Qed.

Lemma escape_cons (c : ascii) (r : string) :
  Json.escape (String c r) = Json.escape (String c "") ++ Json.escape r.
Proof.
  cbn [Json.escape]. now rewrite string_app_nil_r.
Qed.

(** [json.dumps] writes the body of a string in printable ASCII. *)
Lemma escape_printable (s : string) :
  forall c, Py.mem_char c (Json.escape s) = true -> printable c = true.
Proof.
  unfold printable. induction s as [|d r IH]; intros c; [discriminate|].
  rewrite escape_cons, mem_char_app. intros H.
  apply orb_true_iff in H as [H|H]; [|now apply IH].
  clear IH. revert H.
  destruct d as [[] [] [] [] [] [] [] []]; vm_compute Json.escape;
    cbn [Py.mem_char]; rewrite ?orb_false_r;
    repeat (rewrite orb_true_iff; intros [H|H]; revert H);
    intros H; apply Ascii.eqb_eq in H; subst c; reflexivity.
Qed.

Lemma join_cons2 (sep a : string) (b : string) (r : list string) :
  Py.join sep (a :: b :: r) = a ++ sep ++ Py.join sep (b :: r).
Proof. reflexivity. Qed.

Lemma dumps_list (items : list json) :
  Json.dumps (JArr items) = "[" ++ Py.join ", " (map Json.dumps items) ++ "]".
Proof. reflexivity. Qed.

Lemma dumps_map (members : list (string * json)) :
  Json.dumps (JObj members)
  = "{" ++ Py.join ", " (map member_text members) ++ "}".
Proof. reflexivity. Qed.

(** Induction on a JSON value, with the property at hand for every element
    of a list and every value of a mapping. *)
Lemma json_induction (P : json -> Prop) :
  P JNull ->
  (forall b, P (JBool b)) ->
  (forall n, P (JNum n)) ->
  (forall r, P (JFloat r)) ->
  (forall s, P (JStr s)) ->
  (forall items, Forall P items -> P (JArr items)) ->
  (forall members, Forall (fun kv => P (snd kv)) members -> P (JObj members)) ->
  forall v, P v.
Proof.
  intros Hnull Hbool Hnum Hfloat Hstr Harr Hobj.
  fix F 1. intros [| b | n | r | s | items | members].
  - exact Hnull.
  - apply Hbool.
  - apply Hnum.
  - apply Hfloat.
  - apply Hstr.
  - apply Harr. induction items as [|x r IH]; constructor;
      [apply F | exact IH].
  - apply Hobj. induction members as [|[k x] r IH]; constructor;
      [apply F | exact IH].
Qed.

(** ** The log file, written and read again *)

Ltac char_cases :=
  let Hm := fresh "Hm" in
  cbn [Py.mem_char]; rewrite ?orb_false_r;
  repeat (rewrite orb_true_iff; intros [Hm|Hm]; revert Hm);
  intros Hm; apply Ascii.eqb_eq in Hm; subst; reflexivity.

Lemma one_line_app (a b : string) :
  one_line (a ++ b) = one_line a && one_line b.
Proof.
  induction a as [|c r IH]; [reflexivity|].
  cbn [String.append one_line]. now rewrite IH, andb_assoc.
Qed.

Lemma printable_one_line (s : string) :
  (forall c, Py.mem_char c s = true -> printable c = true) ->
  one_line s = true.
Proof.
  induction s as [|d r IH]; intros Hs; [reflexivity|].
  cbn [one_line].
  assert (Hd : printable d = true).
  { apply Hs. cbn [Py.mem_char]. now rewrite Ascii.eqb_refl. }
  unfold printable in Hd. apply andb_true_iff in Hd as [Hlo _].
  apply Nat.leb_le in Hlo.
  assert (H10 : (Py.code d =? 10)%nat = false) by (apply Nat.eqb_neq; lia).
  assert (H13 : (Py.code d =? 13)%nat = false) by (apply Nat.eqb_neq; lia).
  rewrite H10, H13. apply IH.
  intros c Hc. apply Hs. cbn [Py.mem_char]. rewrite Hc. apply orb_true_r.
Qed.

Lemma uint_printable (d : Decimal.uint) (c : ascii) :
  Py.mem_char c (NilEmpty.string_of_uint d) = true -> printable c = true.
Proof.
  induction d as [|d IH|d IH|d IH|d IH|d IH|d IH|d IH|d IH|d IH|d IH];
    cbn [NilEmpty.string_of_uint Py.mem_char]; [discriminate|..];
    (intros H; apply orb_true_iff in H as [H|H]; [|now apply IH];
     apply Ascii.eqb_eq in H; subst c; reflexivity).
Qed.

Lemma str_of_Z_printable (n : Z) (c : ascii) :
  Py.mem_char c (Py.str_of_Z n) = true -> printable c = true.
Proof.
  unfold Py.str_of_Z. destruct n as [|p|p]; simpl Z.to_int.
  - change (NilZero.string_of_int (Decimal.Pos Decimal.zero)) with "0".
    char_cases.
  - unfold NilZero.string_of_int. rewrite str_of_pos. apply uint_printable.
  - unfold NilZero.string_of_int. rewrite str_of_pos.
    cbn [Py.mem_char]. intros H. apply orb_true_iff in H as [H|H].
    + apply Ascii.eqb_eq in H. subst c. reflexivity.
    + now apply uint_printable in H.
Qed.

Lemma encode_string_printable (s : string) (c : ascii) :
  Py.mem_char c (Json.encode_string s) = true -> printable c = true.
Proof.
  unfold Json.encode_string. rewrite !mem_char_app. intros H.
  apply orb_true_iff in H as [H|H];
    [|apply orb_true_iff in H as [H|H]; [now apply escape_printable in H|]];
    revert H; unfold Py.dq; cbn [Py.mem_char]; rewrite orb_false_r;
    intros H; apply Ascii.eqb_eq in H; subst c; reflexivity.
Qed.

Lemma join_one_line (parts : list string) :
  Forall (fun p => one_line p = true) parts ->
  one_line (Py.join ", " parts) = true.
Proof.
  induction 1 as [|x r Hx Hr IH]; [reflexivity|].
  destruct r as [|y r']; [exact Hx|].
  rewrite join_cons2, !one_line_app, Hx, IH. reflexivity.
Qed.

(** [json.dumps] writes a value on one line. *)
Lemma dumps_one_line (v : json) :
  plain_floats v = true -> one_line (Json.dumps v) = true.
Proof.
  induction v using json_induction; intros Hv.
  - reflexivity.
  - destruct b; reflexivity.
  - apply printable_one_line. intros c. apply str_of_Z_printable.
  - cbn [Json.dumps plain_floats] in *.
    destruct (String.eqb r "nan"); [reflexivity|].
    destruct (String.eqb r "inf"); [reflexivity|].
    destruct (String.eqb r "-inf"); [reflexivity | exact Hv].
  - apply printable_one_line. intros c. apply encode_string_printable.
  - rewrite dumps_list, !one_line_app. cbn [plain_floats] in Hv.
    rewrite join_one_line; [reflexivity|].
    apply Forall_map. rewrite Forall_forall in *. intros x Hx.
    apply H; [exact Hx|]. rewrite forallb_forall in Hv. now apply Hv.
  - rewrite dumps_map, !one_line_app. cbn [plain_floats] in Hv.
    rewrite join_one_line; [reflexivity|].
    apply Forall_map. rewrite Forall_forall in *. intros [k x] Hx.
    unfold member_text. rewrite !one_line_app.
    rewrite (printable_one_line _ (encode_string_printable k)).
    rewrite forallb_forall in Hv.
    pose proof (H (k, x) Hx (Hv (k, x) Hx)) as Hvalue.
    cbn [snd] in Hvalue. rewrite Hvalue. reflexivity.
Qed.

(** The first line of a text that starts with a line and a line feed. *)
Lemma file_lines_line (l : string) :
  one_line l = true ->
  forall cur rest,
    StructuredLogger.file_lines cur (l ++ Py.nl ++ rest)
    = (cur ++ l ++ Py.nl) :: StructuredLogger.file_lines "" rest.
Proof.
  induction l as [|c l' IH]; intros Hl cur rest.
  - reflexivity.
  - cbn [one_line] in Hl. apply andb_true_iff in Hl as [Hc Hl].
    apply andb_true_iff in Hc as [H10 H13].
    apply negb_true_iff in H10. apply negb_true_iff in H13.
    change (String c l' ++ Py.nl ++ rest)
      with (String c (l' ++ Py.nl ++ rest)).
    cbn [StructuredLogger.file_lines]. rewrite H10, H13, (IH Hl).
    rewrite string_app_assoc. reflexivity.
Qed.

Lemma file_lines_trail (es : list json) :
  forallb plain_floats es = true ->
  StructuredLogger.file_lines "" (trail_text es)
  = map (fun e => Json.dumps e ++ Py.nl) es.
Proof.
  induction es as [|e r IH]; intros Hes; [reflexivity|].
  cbn [forallb] in Hes. apply andb_true_iff in Hes as [He Hr].
  cbn [trail_text fold_right map].
  rewrite (file_lines_line _ (dumps_one_line e He)).
  fold (trail_text r). now rewrite (IH Hr).
Qed.

(** The line of a logged entry is not blank. *)
Lemma entry_line_nonblank (c : logged_call) :
  AdminManager.nonempty (Py.strip (Json.dumps (call_entry c) ++ Py.nl))
  = true.
Proof.
  destruct c as [[now ok] a]. unfold call_entry, StructuredLogger.log_entry.
  rewrite dumps_map.
  change (("{" ++ ?x) ++ Py.nl) with (String "{" (x ++ Py.nl)).
  unfold Py.strip. cbn [Py.lstrip_by].
  change (Py.isspace "{") with false. cbv iota.
  match goal with
  | |- context [Py.rstrip_by Py.isspace (String "{" ?x)] =>
      destruct (rstrip_by_head Py.isspace "{" x eq_refl) as [r' ->]
  end.
  reflexivity.
Qed.

(** The loop of [load_logs] over lines that the decoder reads back. *)
Lemma load_lines_written (loads : StructuredLogger.decoder)
      (cs : list logged_call) :
  (forall c, In c cs ->
             loads (Json.dumps (call_entry c) ++ Py.nl)
             = Ok (call_entry c)) ->
  forall acc,
    StructuredLogger.load_lines loads acc
      (map (fun e => Json.dumps e ++ Py.nl) (map call_entry cs))
    = (acc ++ map call_entry cs)%list.
Proof.
  induction cs as [|c r IH]; intros Hread acc.
  - symmetry. apply app_nil_r.
  - cbn [map StructuredLogger.load_lines].
    unfold StructuredLogger.load_line.
    rewrite entry_line_nonblank, (Hread c (or_introl eq_refl)).
    rewrite IH by (intros c' Hc'; apply Hread; now right).
    now rewrite <- app_assoc.
Qed.

Lemma init_logs (loads : StructuredLogger.decoder) (fs : option string) :
  StructuredLogger.logs (StructuredLogger.init loads fs)
  = StructuredLogger.load_lines loads []
      (StructuredLogger.file_lines "" (content fs)).
Proof. destruct fs; reflexivity. Qed.

(** The log file after the calls of [h]: what it held before, then one line
    for every call whose append succeeded. *)
Lemma replay_on_content (h : list logged_call) :
  forall self,
    content (StructuredLogger.store (replay_on self h))
    = content (StructuredLogger.store self)
      ++ trail_text (map call_entry (filter call_ok h)).
Proof.
  induction h as [|[[now ok] a] r IH]; intros self.
  - symmetry. apply string_app_nil_r.
  - change (replay_on self ((now, ok, a) :: r))
      with (replay_on (StructuredLogger.log_action now ok a self) r).
    rewrite IH. destruct ok; cbn [filter call_ok map].
    + cbn [StructuredLogger.log_action StructuredLogger.store content
           trail_text fold_right call_entry].
      fold (trail_text (map call_entry (filter call_ok r))).
      unfold content. now rewrite !string_app_assoc.
    + reflexivity.
Qed.

(** A logger started on the file that earlier calls of [log_action] left
    behind holds exactly the entries whose append to the file succeeded, in
    the order of the calls, whenever the decoder reads back the lines that
    were written, as [json.loads] does with a line that [json.dumps] wrote,
    and no float in the entries has a line terminator in its [repr]. *)
Theorem restart_reloads_written_entries :
  forall (loads : StructuredLogger.decoder) (h : list logged_call),
    (forall c, In c h -> call_ok c = true ->
               loads (Json.dumps (call_entry c) ++ Py.nl)
               = Ok (call_entry c)) ->
    forallb (fun c => plain_floats (call_entry c)) h = true ->
    StructuredLogger.logs
      (StructuredLogger.init loads (StructuredLogger.store (replay h)))
    = map call_entry (filter call_ok h).
Proof.
  intros loads h Hread Hplain. rewrite init_logs. unfold replay.
  rewrite replay_on_content.
  change (content (StructuredLogger.store StructuredLogger.fresh)) with "".
  change ("" ++ trail_text (map call_entry (filter call_ok h)))
    with (trail_text (map call_entry (filter call_ok h))).
  rewrite file_lines_trail.
  - rewrite load_lines_written; [reflexivity|].
    intros c Hc. apply filter_In in Hc as [Hin Hok]. now apply Hread.
  - apply forallb_forall. intros e He.
    apply in_map_iff in He as [c [<- Hc]].
    apply filter_In in Hc as [Hc _].
    rewrite forallb_forall in Hplain. now apply Hplain.
Qed.

Lemma restart_reloads_written_entries_witness :
  StructuredLogger.logs
    (StructuredLogger.init reads_first_call
       (StructuredLogger.store (replay [first_call; second_call])))
  = map call_entry (filter call_ok [first_call; second_call]).
Proof.
  apply (restart_reloads_written_entries reads_first_call
           [first_call; second_call]).
  - intros c [<-|[<-|[]]] Hok; [reflexivity | discriminate Hok].
  - reflexivity.
Defined.


Lemma prefix_app (p v : string) : String.prefix p (p ++ v) = true.
Proof.
  induction p as [|a p' IH]; [destruct v; reflexivity|].
  simpl. destruct (ascii_dec a a); [exact IH | congruence].
Qed.

(** A text without line terminator starts a terminated line exactly when it
    starts the line's body. *)
Lemma prefix_line (p : string) :
  one_line p = true ->
  forall b, String.prefix p (b ++ Py.nl) = String.prefix p b.
Proof.
  induction p as [|a p' IH]; intros Hp b; [destruct b; reflexivity|].
  cbn [one_line] in Hp. apply andb_true_iff in Hp as [Ha Hp].
  destruct b as [|c b'].
  - simpl. destruct (ascii_dec a (ascii_of_nat 10)) as [->|_];
      [discriminate Ha | reflexivity].
  - simpl. destruct (ascii_dec a c); [now apply IH | reflexivity].
Qed.

Lemma readlines_line (l : string) :
  one_line l = true ->
  forall cur rest,
    App.readlines cur (l ++ Py.nl ++ rest)
    = (cur ++ l ++ Py.nl) :: App.readlines "" rest.
Proof.
  induction l as [|c l' IH]; intros Hl cur rest; [reflexivity|].
  cbn [one_line] in Hl. apply andb_true_iff in Hl as [Hc Hl].
  apply andb_true_iff in Hc as [H10 H13].
  apply negb_true_iff in H10. apply negb_true_iff in H13.
  change (String c l' ++ Py.nl ++ rest) with (String c (l' ++ Py.nl ++ rest)).
  cbn [App.readlines]. rewrite H10, H13, (IH Hl), string_app_assoc.
  reflexivity.
Qed.

Lemma readlines_unterminated (l : string) :
  one_line l = true ->
  forall cur,
    App.readlines cur l
    = match cur ++ l with EmptyString => [] | s => [s] end.
Proof.
  induction l as [|c l' IH]; intros Hl cur.
  - rewrite string_app_nil_r. destruct cur; reflexivity.
  - cbn [one_line] in Hl. apply andb_true_iff in Hl as [Hc Hl].
    apply andb_true_iff in Hc as [H10 H13].
    apply negb_true_iff in H10. apply negb_true_iff in H13.
    cbn [App.readlines]. rewrite H10, H13, (IH Hl), string_app_assoc.
    reflexivity.
Qed.

Lemma readlines_file_of (bodies : list string) :
  forallb one_line bodies = true ->
  forall rest,
    App.readlines "" (file_of bodies ++ rest)
    = (map (fun b => (b ++ Py.nl)%string) bodies ++ App.readlines "" rest)%list.
Proof.
  induction bodies as [|b r IH]; intros Hb rest; [reflexivity|].
  cbn [forallb] in Hb. apply andb_true_iff in Hb as [Hl Hr].
  cbn [file_of fold_right]. fold (file_of r).
  rewrite !string_app_assoc, (readlines_line b Hl), (IH Hr). reflexivity.
Qed.

Lemma writelines_lines (bodies : list string) (tail : list string) :
  App.writelines (map (fun b => (b ++ Py.nl)%string) bodies ++ tail)%list
  = file_of bodies ++ App.writelines tail.
Proof.
  induction bodies as [|b r IH]; [reflexivity|].
  cbn [map List.app App.writelines fold_right file_of].
  fold (App.writelines (map (fun b => (b ++ Py.nl)%string) r ++ tail)%list).
  fold (file_of r). now rewrite IH, !string_app_assoc.
Qed.

Lemma replace_first_lines (p e : string) (bodies : list string) :
  one_line p = true ->
  App.replace_first p (e ++ Py.nl) (map (fun b => (b ++ Py.nl)%string) bodies)
  = option_map (map (fun b => (b ++ Py.nl)%string)) (App.replace_first p e bodies).
Proof.
  intros Hp. induction bodies as [|b r IH]; [reflexivity|].
  cbn [map App.replace_first]. rewrite (prefix_line p Hp b), IH.
  destruct (String.prefix p b); [reflexivity|].
  destruct (App.replace_first p e r); reflexivity.
Qed.

Lemma existsb_lines (p : string) (bodies : list string) :
  one_line p = true ->
  existsb (String.prefix p) (map (fun b => (b ++ Py.nl)%string) bodies)
  = existsb (String.prefix p) bodies.
Proof.
  intros Hp. induction bodies as [|b r IH]; [reflexivity|].
  cbn [map existsb]. now rewrite (prefix_line p Hp b), IH.
Qed.

Lemma put_line_lines (p e : string) (bodies : list string) :
  one_line p = true ->
  App.put_line p (e ++ Py.nl) (map (fun b => (b ++ Py.nl)%string) bodies)
  = map (fun b => (b ++ Py.nl)%string) (App.put_line p e bodies).
Proof.
  intros Hp. unfold App.put_line. rewrite (replace_first_lines p e bodies Hp).
  destruct (App.replace_first p e bodies); cbn [option_map]; [reflexivity|].
  now rewrite map_app.
Qed.

Lemma replace_first_none (p e : string) (bodies : list string) :
  App.replace_first p e bodies = None
  <-> existsb (String.prefix p) bodies = false.
Proof.
  induction bodies as [|b r IH]; [now split|].
  cbn [App.replace_first existsb].
  destruct (String.prefix p b); [now split|].
  cbn [orb]. rewrite <- IH.
  destruct (App.replace_first p e r); now split.
Qed.

(** What the loop does when it finds a line. *)
Lemma replace_first_found (p e : string) :
  String.prefix p e = true ->
  forall bodies bodies',
    App.replace_first p e bodies = Some bodies' ->
    existsb (String.prefix p) bodies = true
    /\ find (String.prefix p) bodies' = Some e
    /\ filter (fun b => negb (String.prefix p b)) bodies'
       = filter (fun b => negb (String.prefix p b)) bodies
    /\ List.length bodies' = List.length bodies
    /\ (forallb one_line bodies = true -> one_line e = true ->
        forallb one_line bodies' = true)
    /\ App.replace_first p e bodies' = Some bodies'.
Proof.
  intros He bodies. induction bodies as [|b r IH]; intros bodies';
    [discriminate|].
  cbn [App.replace_first existsb filter forallb].
  destruct (String.prefix p b) eqn:Hb.
  - intros H. injection H as <-.
    cbn [find filter App.replace_first List.length forallb].
    rewrite He. cbn [negb orb].
    repeat split. intros Hl Hone. apply andb_true_iff in Hl as [_ Hl].
    now rewrite Hone, Hl.
  - destruct (App.replace_first p e r) as [r'|] eqn:Hr; [|discriminate].
    intros H. injection H as <-.
    destruct (IH r' eq_refl) as [Hex [Hfind [Hfilter [Hlen [Hone Hagain]]]]].
    cbn [find filter App.replace_first List.length forallb].
    rewrite Hb, Hagain, Hfilter, Hlen. cbn [negb orb].
    repeat split; try assumption.
    intros Hl He1. apply andb_true_iff in Hl as [Hb1 Hl].
    now rewrite Hb1, (Hone Hl He1).
Qed.

(** What the append does when the loop finds none. *)
Lemma append_not_found (p e : string) :
  String.prefix p e = true ->
  forall bodies,
    existsb (String.prefix p) bodies = false ->
    find (String.prefix p) (bodies ++ [e]) = Some e
    /\ filter (fun b => negb (String.prefix p b)) (bodies ++ [e])
       = filter (fun b => negb (String.prefix p b)) bodies
    /\ App.replace_first p e (bodies ++ [e]) = Some (bodies ++ [e])%list.
Proof.
  intros He bodies. induction bodies as [|b r IH]; intros Hex.
  - cbn [List.app find filter App.replace_first]. rewrite He. now repeat split.
  - cbn [existsb] in Hex. apply orb_false_iff in Hex as [Hb Hr].
    destruct (IH Hr) as [Hfind [Hfilter Hagain]].
    cbn [List.app find filter App.replace_first].
    rewrite Hb, Hfind, Hfilter, Hagain. now repeat split.
Qed.

Lemma update_env_file_lines (key value : string) (fs : option string)
      (bodies : list string) :
  one_line key = true ->
  forallb one_line bodies = true ->
  content fs = file_of bodies ->
  App.update_env_file true true key value fs
  = (Some (file_of (App.put_line (key ++ "=") (assignment key value) bodies)),
     true).
Proof.
  intros Hk Hb Hfs.
  assert (Hread : App.update_env_file true true key value fs
                  = (Some (App.writelines
                             (App.put_line (key ++ "=")
                                (key ++ "=" ++ value ++ Py.nl)
                                (App.readlines "" (content fs)))), true)).
  { destruct fs; reflexivity. }
  rewrite Hread, Hfs. clear Hread Hfs.
  pose proof (readlines_file_of bodies Hb "") as Hr.
  rewrite string_app_nil_r in Hr. rewrite Hr. cbn [App.readlines].
  rewrite app_nil_r.
  replace (key ++ "=" ++ value ++ Py.nl)
    with (assignment key value ++ Py.nl)
    by (unfold assignment; now rewrite !string_app_assoc).
  rewrite put_line_lines by (now rewrite one_line_app, Hk).
  pose proof (writelines_lines
                (App.put_line (key ++ "=") (assignment key value) bodies) [])
    as Hw.
  rewrite app_nil_r in Hw. rewrite Hw. cbn [App.writelines fold_right].
  now rewrite string_app_nil_r.
Qed.

(** On a file of terminated lines (or no file), [update_env_file] with a
    key and a value free of line terminators, when the file can be read and
    written, returns [True] and leaves a file of terminated lines in which
    the first line starting with [key=] is [key=value]; the other lines are
    kept in order, the file grows by one line exactly when no line started
    with [key=], and a second call with the same arguments changes
    nothing. *)
Theorem update_env_file_sets_key :
  forall (key value : string) (fs : option string) (bodies : list string),
    one_line key = true ->
    one_line value = true ->
    forallb one_line bodies = true ->
    content fs = file_of bodies ->
    exists bodies' : list string,
      App.update_env_file true true key value fs
      = (Some (file_of bodies'), true)
      /\ forallb one_line bodies' = true
      /\ find (defines key) bodies' = Some (assignment key value)
      /\ filter (fun b => negb (defines key b)) bodies'
         = filter (fun b => negb (defines key b)) bodies
      /\ List.length bodies'
         = (List.length bodies
            + (if existsb (defines key) bodies then 0 else 1))%nat
      /\ App.update_env_file true true key value (Some (file_of bodies'))
         = (Some (file_of bodies'), true).
Proof.
  intros key value fs bodies Hk Hv Hb Hfs.
  assert (He : String.prefix (key ++ "=") (assignment key value) = true).
  { unfold assignment. rewrite <- string_app_assoc. apply prefix_app. }
  assert (Hone : one_line (assignment key value) = true).
  { unfold assignment. now rewrite !one_line_app, Hk, Hv. }
  exists (App.put_line (key ++ "=") (assignment key value) bodies).
  split; [now apply update_env_file_lines|].
  unfold defines.
  change (fun b => String.prefix (key ++ "=") b)
    with (String.prefix (key ++ "=")).
  assert (Hput :
    let bodies' := App.put_line (key ++ "=") (assignment key value) bodies in
    forallb one_line bodies' = true
    /\ find (String.prefix (key ++ "=")) bodies' = Some (assignment key value)
    /\ filter (fun b => negb (String.prefix (key ++ "=") b)) bodies'
       = filter (fun b => negb (String.prefix (key ++ "=") b)) bodies
    /\ List.length bodies'
       = (List.length bodies
          + (if existsb (String.prefix (key ++ "=")) bodies then 0 else 1))%nat
    /\ App.put_line (key ++ "=") (assignment key value) bodies' = bodies').
  { unfold App.put_line.
    destruct (App.replace_first (key ++ "=") (assignment key value) bodies)
      as [bodies'|] eqn:Hr.
    - destruct (replace_first_found _ _ He bodies bodies' Hr)
        as [Hex [Hfind [Hfilter [Hlen [Hl Hagain]]]]].
      cbv zeta. rewrite Hagain, Hex, Hlen, Nat.add_0_r.
      repeat split; auto.
    - apply replace_first_none in Hr.
      destruct (append_not_found _ _ He bodies Hr) as [Hfind [Hfilter Hagain]].
      cbv zeta. rewrite Hagain, Hr, length_app.
      repeat split; auto.
      rewrite forallb_app, Hb. cbn [forallb]. now rewrite Hone. }
  cbv zeta in Hput. destruct Hput as [Hl [Hfind [Hfilter [Hlen Hagain]]]].
  repeat split; try assumption.
  rewrite (update_env_file_lines key value
             (Some (file_of (App.put_line (key ++ "=")
                               (assignment key value) bodies)))
             (App.put_line (key ++ "=") (assignment key value) bodies)
             Hk Hl eq_refl).
  now rewrite Hagain.
Qed.

Lemma update_env_file_sets_key_witness :
  exists bodies' : list string,
    App.update_env_file true true "ADMIN_USER_IDS" "U1,U2"
      (Some (file_of ["SLACK_BOT_TOKEN=xoxb-1"; "ADMIN_USER_IDS=U1";
                      "SPLUNK_VERIFY_TLS=false"]))
    = (Some (file_of bodies'), true)
    /\ forallb one_line bodies' = true
    /\ find (defines "ADMIN_USER_IDS") bodies'
       = Some (assignment "ADMIN_USER_IDS" "U1,U2")
    /\ filter (fun b => negb (defines "ADMIN_USER_IDS" b)) bodies'
       = filter (fun b => negb (defines "ADMIN_USER_IDS" b))
                ["SLACK_BOT_TOKEN=xoxb-1"; "ADMIN_USER_IDS=U1";
                 "SPLUNK_VERIFY_TLS=false"]
    /\ List.length bodies'
       = (List.length ["SLACK_BOT_TOKEN=xoxb-1"; "ADMIN_USER_IDS=U1";
                       "SPLUNK_VERIFY_TLS=false"]
          + (if existsb (defines "ADMIN_USER_IDS")
                        ["SLACK_BOT_TOKEN=xoxb-1"; "ADMIN_USER_IDS=U1";
                         "SPLUNK_VERIFY_TLS=false"]
             then 0 else 1))%nat
    /\ App.update_env_file true true "ADMIN_USER_IDS" "U1,U2"
         (Some (file_of bodies'))
       = (Some (file_of bodies'), true).
Proof.
  apply (update_env_file_sets_key "ADMIN_USER_IDS" "U1,U2"
           (Some (file_of ["SLACK_BOT_TOKEN=xoxb-1"; "ADMIN_USER_IDS=U1";
                           "SPLUNK_VERIFY_TLS=false"]))
           ["SLACK_BOT_TOKEN=xoxb-1"; "ADMIN_USER_IDS=U1";
            "SPLUNK_VERIFY_TLS=false"]); reflexivity.
Defined.

(** On a file whose last line has no terminator and in which no line starts
    with [key=], [update_env_file] returns [True] but writes the new entry
    onto the end of that last line: the file read again has as many lines as
    before, the last one being the old last line followed by [key=value]. *)
Theorem update_env_file_joins_unterminated_line :
  forall (key value last : string) (bodies : list string),
    one_line key = true ->
    one_line value = true ->
    forallb one_line bodies = true ->
    one_line last = true ->
    AdminManager.nonempty last = true ->
    existsb (defines key) (bodies ++ [last]) = false ->
    App.update_env_file true true key value (Some (file_of bodies ++ last))
    = (Some (file_of bodies ++ last ++ assignment key value ++ Py.nl), true)
    /\ App.readlines ""
         (file_of bodies ++ last ++ assignment key value ++ Py.nl)
       = (map (fun b => (b ++ Py.nl)%string) bodies
          ++ [(last ++ assignment key value ++ Py.nl)%string])%list.
Proof.
  intros key value last bodies Hk Hv Hb Hlast Hne Hex.
  assert (Hone : one_line (assignment key value) = true).
  { unfold assignment. now rewrite !one_line_app, Hk, Hv. }
  assert (Hp : one_line (key ++ "=") = true)
    by (now rewrite one_line_app, Hk).
  rewrite existsb_app in Hex. apply orb_false_iff in Hex as [Hex1 Hex2].
  cbn [existsb] in Hex2. rewrite orb_false_r in Hex2.
  unfold defines in Hex1, Hex2.
  split.
  - unfold App.update_env_file.
    rewrite (readlines_file_of bodies Hb last).
    rewrite (readlines_unterminated last Hlast "").
    change ("" ++ last) with last.
    destruct last as [|c l]; [discriminate Hne|].
    assert (Hnone :
      App.replace_first (key ++ "=") (key ++ "=" ++ value ++ Py.nl)
        (map (fun b => (b ++ Py.nl)%string) bodies ++ [String c l])%list = None).
    { apply replace_first_none. rewrite existsb_app.
      apply orb_false_iff. split.
      - now rewrite existsb_lines.
      - cbn [existsb]. now rewrite Hex2. }
    unfold App.put_line. rewrite Hnone, <- app_assoc, writelines_lines.
    cbn [List.app App.writelines fold_right]. unfold assignment.
    now rewrite !string_app_assoc, string_app_nil_r.
  - rewrite (readlines_file_of bodies Hb).
    replace (last ++ assignment key value ++ Py.nl)
      with ((last ++ assignment key value) ++ Py.nl ++ "")
      by (now rewrite !string_app_assoc, string_app_nil_r).
    rewrite readlines_line by (now rewrite one_line_app, Hlast, Hone).
    cbn [App.readlines]. now rewrite !string_app_assoc.
Qed.

Lemma update_env_file_joins_unterminated_line_witness :
  App.update_env_file true true "ADMIN_USER_IDS" "U1"
    (Some (file_of ["SPLUNK_VERIFY_TLS=false"] ++ "SLACK_BOT_TOKEN=xoxb-1"))
  = (Some (file_of ["SPLUNK_VERIFY_TLS=false"] ++ "SLACK_BOT_TOKEN=xoxb-1"
           ++ assignment "ADMIN_USER_IDS" "U1" ++ Py.nl), true)
  /\ App.readlines ""
       (file_of ["SPLUNK_VERIFY_TLS=false"] ++ "SLACK_BOT_TOKEN=xoxb-1"
        ++ assignment "ADMIN_USER_IDS" "U1" ++ Py.nl)
     = (map (fun b => (b ++ Py.nl)%string) ["SPLUNK_VERIFY_TLS=false"]
        ++ [("SLACK_BOT_TOKEN=xoxb-1" ++ assignment "ADMIN_USER_IDS" "U1"
             ++ Py.nl)%string])%list.
Proof.
  apply (update_env_file_joins_unterminated_line "ADMIN_USER_IDS" "U1"
           "SLACK_BOT_TOKEN=xoxb-1" ["SPLUNK_VERIFY_TLS=false"]);
    reflexivity.
Defined.
